(** * Sovereign Filter: a shallow embedding of storage.ts, filter.ts and
      dispatch-integration.ts, and the properties of its specification.

    Layout:
    - [JsString]       strings as sequences of UTF-16 code units, the
                       built-ins [encodeURIComponent] and [replace];
    - types.ts         the records and the three classifications;
    - the world        the table service, the store of arrays and queue
                       objects, the clock, and the monad [Eff] of
                       computations that change it and may throw;
    - [Storage]        [normalizeRowKey] and [SovereignStorageClient];
    - [Filter]         [classifySender], [MessageBatchQueue], the nudges,
                       the archive helper, [applySovereignFilter];
    - [Dispatch]       [dispatchWithSovereignFilter];
    - [ReferenceHost]  a host to run examples on, and sample states;
    - the properties, one theorem per claim (C1 to C10).

    Modelling choices.  An [await]ed call is run to completion before the
    caller goes on: one message is processed by one logical flow.  Time
    values are integers of milliseconds, and [Math.round] of a quotient is
    computed in exact arithmetic.  The table service is a pair of finite
    maps with a script of the faults it will answer with, so that any
    request can fail with any error. *)

From Stdlib Require Import ZArith Lia Ascii String List.
From stdpp Require Import gmap strings list.

Open Scope Z_scope.

(** ** Strings *)

(** A JavaScript string is a finite sequence of 16-bit code units. *)
Abbreviation jsstring := (list Z).

Module JsString.

(** A string literal made of ASCII characters. *)
Definition js (s : string) : jsstring :=
  map (fun a => Z.of_nat (nat_of_ascii a)) (list_ascii_of_string s).

(** Truthiness of an optional string: [undefined] and the empty string are
    falsy. *)
Definition truthy (o : option jsstring) : bool :=
  match o with
  | None | Some [] => false
  | Some (_ :: _) => true
  end.

(** The errors the program can observe.  [RestError] is the object the table
    SDK rejects with; it may or may not carry a [statusCode]. *)
Inductive JsError :=
  | URIError
  | TypeError
  | ConfigError
  | RestError (statusCode : option Z).

(** uriUnescaped of ECMA-262: letters, digits and [- _ . ! ~ * ' ( )]. *)
Definition unreserved (c : Z) : bool :=
  ((65 <=? c) && (c <=? 90)) || ((97 <=? c) && (c <=? 122))
  || ((48 <=? c) && (c <=? 57))
  || (c =? 45) || (c =? 95) || (c =? 46) || (c =? 33) || (c =? 126)
  || (c =? 42) || (c =? 39) || (c =? 40) || (c =? 41).

Definition is_lead (c : Z) : bool := (55296 <=? c) && (c <=? 56319).
Definition is_trail (c : Z) : bool := (56320 <=? c) && (c <=? 57343).

(** One uppercase hexadecimal digit. *)
Definition hexDigit (d : Z) : Z :=
  let d := Z.land d 15 in
  if d <? 10 then 48 + d else 55 + d.

(** ["%XX"] for one octet. *)
Definition percentOctet (b : Z) : jsstring :=
  [37; hexDigit (Z.shiftr b 4); hexDigit b].

(** The UTF-8 octets of a code point. *)
Definition utf8 (cp : Z) : list Z :=
  if cp <? 128 then [cp]
  else if cp <? 2048 then
    [Z.lor 192 (Z.shiftr cp 6); Z.lor 128 (Z.land cp 63)]
  else if cp <? 65536 then
    [Z.lor 224 (Z.shiftr cp 12); Z.lor 128 (Z.land (Z.shiftr cp 6) 63);
     Z.lor 128 (Z.land cp 63)]
  else
    [Z.lor 240 (Z.shiftr cp 18); Z.lor 128 (Z.land (Z.shiftr cp 12) 63);
     Z.lor 128 (Z.land (Z.shiftr cp 6) 63); Z.lor 128 (Z.land cp 63)].

Definition escapeCodePoint (cp : Z) : jsstring :=
  concat (map percentOctet (utf8 cp)).

(** [encodeURIComponent] (ECMA-262, Encode with an empty extra set): an
    unreserved unit is copied; any other code point is replaced by the
    escapes of its UTF-8 octets; an unpaired surrogate raises URIError. *)
Fixpoint encodeURIComponent (s : jsstring) : JsError + jsstring :=
  match s with
  | [] => inr []
  | c :: rest =>
    if unreserved c then
      match encodeURIComponent rest with
      | inr r => inr (c :: r)
      | inl e => inl e
      end
    else if is_trail c then inl URIError
    else if is_lead c then
      match rest with
      | d :: rest' =>
        if is_trail d then
          match encodeURIComponent rest' with
          | inr r =>
            inr (escapeCodePoint ((c - 55296) * 1024 + (d - 56320) + 65536)
                 ++ r)
          | inl e => inl e
          end
        else inl URIError
      | [] => inl URIError
      end
    else
      match encodeURIComponent rest with
      | inr r => inr (escapeCodePoint c ++ r)
      | inl e => inl e
      end
  end.

(** [s.replace(/%/g, "$")]. *)
Definition replacePercent (s : jsstring) : jsstring :=
  map (fun c => if c =? 37 then 36 else c) s.

(** No unpaired surrogate among the units that get escaped. *)
Fixpoint well_formed (s : jsstring) : bool :=
  match s with
  | [] => true
  | c :: rest =>
    if unreserved c then well_formed rest
    else if is_trail c then false
    else if is_lead c then
      match rest with
      | d :: rest' => is_trail d && well_formed rest'
      | [] => false
      end
    else well_formed rest
  end.

(** The characters a row key must not contain, and the escape character. *)
Definition reserved (c : Z) : bool :=
  (c =? 47) || (c =? 92) || (c =? 35) || (c =? 63) || (c =? 37).

End JsString.
Export JsString.

(** The nullish coalescing operator [a ?? b] on an optional value. *)
Definition nullish {A} (a : option A) (b : A) : A :=
  match a with Some x => x | None => b end.
Infix "??" := nullish (at level 45, left associativity).

(** The decimal digits of an integer. *)
Fixpoint uintToString (d : Decimal.uint) : jsstring :=
  match d with
  | Decimal.Nil => []
  | Decimal.D0 r => 48 :: uintToString r
  | Decimal.D1 r => 49 :: uintToString r
  | Decimal.D2 r => 50 :: uintToString r
  | Decimal.D3 r => 51 :: uintToString r
  | Decimal.D4 r => 52 :: uintToString r
  | Decimal.D5 r => 53 :: uintToString r
  | Decimal.D6 r => 54 :: uintToString r
  | Decimal.D7 r => 55 :: uintToString r
  | Decimal.D8 r => 56 :: uintToString r
  | Decimal.D9 r => 57 :: uintToString r
  end.

Definition decimalString (z : Z) : jsstring :=
  match z with
  | Z0 => [48]
  | Zpos p => uintToString (Pos.to_uint p)
  | Zneg p => 45 :: uintToString (Pos.to_uint p)
  end.

(** The numbers the nudge generator handles: an integer, or NaN when a
    timestamp does not parse. *)
Inductive number :=
  | Int (z : Z)
  | NaN.

(** [Math.round(n / d)] for integers [n] and [d > 0], in exact arithmetic:
    the nearest integer, a tie going up. *)
Definition roundDiv (n d : Z) : Z := (2 * n + d) / (2 * d).

(** Built-ins of the host that are left abstract: the ISO-8601 rendering of
    a time value (milliseconds since the epoch), the time value a string
    parses to ([None] for an invalid date, whose time value is NaN), the
    exponent form in which a number of magnitude 10^21 or more is printed,
    and the SDK's check of a connection string. *)
Class Platform := {
  toISOString : Z -> jsstring;
  parseDate : jsstring -> option Z;
  exponentString : Z -> jsstring;
  connectionStringFault : jsstring -> option JsError
}.

(** An integer as a template literal prints it (Number::toString): all its
    decimal digits below 10^21, the exponent form from there on. *)
Definition intToString `{Platform} (z : Z) : jsstring :=
  if Z.abs z <? 10 ^ 21 then decimalString z else exponentString z.

Definition numberToString `{Platform} (n : number) : jsstring :=
  match n with
  | Int z => intToString z
  | NaN => js "NaN"
  end.

(** ** types.ts *)

Inductive SenderClassification :=
  | priority_human
  | known_human
  | system_noise.

Module UrgencyTableEntry.
Record t := {
  partitionKey : jsstring;
  rowKey : jsstring;
  displayName : jsstring;
  isPriority : bool;
  lastMessageAt : option jsstring;
  lastRepliedAt : option jsstring;
  notes : option jsstring
}.
End UrgencyTableEntry.

Module ClassificationResult.
Record t := {
  classification : SenderClassification;
  contactEntry : option UrgencyTableEntry.t
}.
End ClassificationResult.

Module ArchivedNoiseEntity.
Record t := {
  partitionKey : jsstring;
  rowKey : jsstring;
  provider : jsstring;
  senderId : jsstring;
  senderName : option jsstring;
  body : jsstring;
  receivedAt : jsstring;
  sessionKey : option jsstring
}.
End ArchivedNoiseEntity.

Module BatchedMessage.
Record t := {
  senderId : jsstring;
  senderName : option jsstring;
  body : jsstring;
  provider : option jsstring;
  receivedAt : jsstring;
  sessionKey : option jsstring;
  originatingChannel : option jsstring;
  originatingTo : option jsstring
}.
End BatchedMessage.

Module RelationshipNudge.
Record t := {
  contactName : jsstring;
  contactId : jsstring;
  silentHours : number;
  suggestion : jsstring
}.
End RelationshipNudge.

Module SovereignFilterConfig.
Record t := {
  enabled : bool;
  batchSchedule : jsstring;
  nudgeAfterSilentHours : Z;
  azureStorageConnectionString : option jsstring
}.
End SovereignFilterConfig.

Definition DEFAULT_SOVEREIGN_FILTER_CONFIG : SovereignFilterConfig.t :=
  {| SovereignFilterConfig.enabled := false;
     SovereignFilterConfig.batchSchedule := js "0 9 * * *";
     SovereignFilterConfig.nudgeAfterSilentHours := 72;
     SovereignFilterConfig.azureStorageConnectionString := None |}.

(** The fields of the inbound message context the filter reads. *)
Module MsgContext.
Record t := {
  Body : option jsstring;
  From : option jsstring;
  SenderId : option jsstring;
  SenderName : option jsstring;
  Provider : option jsstring;
  Surface : option jsstring;
  SessionKey : option jsstring;
  MessageSid : option jsstring;
  OriginatingChannel : option jsstring;
  OriginatingTo : option jsstring
}.
End MsgContext.

(** ** The world the program runs in *)

Abbreviation loc := positive.

(** A request the storage client sends to a table. *)
Inductive TableCall :=
  | GetEntity (table pk rk : jsstring)
  | ListEntities (table pk : jsstring)
  | UpsertEntity (table pk rk : jsstring)
  | UpdateEntity (table pk rk : jsstring).

(** The storage account: the two tables, the answers the service will give
    to the coming requests ([Some e]: the request fails with [e]; [None] or
    an exhausted script: it is served), and the requests received so far. *)
Record Backend := {
  urgencyTable : gmap (jsstring * jsstring) UrgencyTableEntry.t;
  archiveTable : gmap (jsstring * jsstring) ArchivedNoiseEntity.t;
  faults : list (option JsError);
  calls : list TableCall
}.

(** Arrays and queue objects live in a store and are passed by reference. *)
Record Heap := {
  arrays : gmap loc (list BatchedMessage.t);
  queues : gmap loc loc;
  next : loc
}.

(** The clock (the current reading and the readings to come), the values
    [Math.random().toString(36).slice(2, 8)] will produce, and the
    environment variable AZURE_STORAGE_CONNECTION_STRING. *)
Record Host := {
  now : Z;
  later : list Z;
  entropy : list jsstring;
  env : option jsstring
}.

(** [unawaited] collects how the promises nobody awaits were settled. *)
Record World := {
  backend : Backend;
  heap : Heap;
  host : Host;
  unawaited : list (JsError + unit)
}.

Definition with_backend (b : Backend) (w : World) : World :=
  {| backend := b; heap := heap w; host := host w; unawaited := unawaited w |}.
Definition with_heap (h : Heap) (w : World) : World :=
  {| backend := backend w; heap := h; host := host w; unawaited := unawaited w |}.
Definition with_host (h : Host) (w : World) : World :=
  {| backend := backend w; heap := heap w; host := h; unawaited := unawaited w |}.
Definition with_unawaited (u : list (JsError + unit)) (w : World) : World :=
  {| backend := backend w; heap := heap w; host := host w; unawaited := u |}.

(** An asynchronous computation over a state [S], run to completion: it
    changes the state and either throws (rejects) or returns (resolves). *)
Definition Eff (S A : Type) : Type := S -> S * (JsError + A).

Definition ret {S A} (a : A) : Eff S A := fun w => (w, inr a).
Definition throw {S A} (e : JsError) : Eff S A := fun w => (w, inl e).
Definition bind {S A B} (m : Eff S A) (k : A -> Eff S B) : Eff S B :=
  fun w =>
    match m w with
    | (w', inr a) => k a w'
    | (w', inl e) => (w', inl e)
    end.

Notation "'let!' x ':=' m 'in' k" := (bind m (fun x => k))
  (at level 10, x name, m at level 100, k at level 200).
Notation "'do!' m 'in' k" := (bind m (fun _ => k))
  (at level 10, m at level 100, k at level 200).

(** [try { m } catch (err) { h err }]. *)
Definition try_catch {S A} (m : Eff S A) (h : JsError -> Eff S A) : Eff S A :=
  fun w =>
    match m w with
    | (w', inl e) => h e w'
    | r => r
    end.

Definition liftE {S A} (r : JsError + A) : Eff S A := fun w => (w, r).

Fixpoint mapM {S A B} (f : A -> Eff S B) (l : list A) : Eff S (list B) :=
  match l with
  | [] => ret []
  | x :: r => let! y := f x in let! ys := mapM f r in ret (y :: ys)
  end.

(** The filter and the storage client run in the world. *)
Abbreviation M := (Eff World).

(** [void p]: the promise is started and dropped; how it settles is
    recorded and is not seen by the caller. *)
Definition void {A} (m : M A) : M unit :=
  fun w =>
    match m w with
    | (w', inr _) => (with_unawaited (unawaited w' ++ [inr tt]) w', inr tt)
    | (w', inl e) => (with_unawaited (unawaited w' ++ [inl e]) w', inr tt)
    end.

(** [Date.now()] and the time value of [new Date()]. *)
Definition Date_now : M Z :=
  fun w =>
    let h := host w in
    (with_host {| now := hd (now h) (later h); later := tl (later h);
                  entropy := entropy h; env := env h |} w,
     inr (now h)).

(** [Math.random().toString(36).slice(2, 8)]. *)
Definition randomSuffix : M jsstring :=
  fun w =>
    let h := host w in
    (with_host {| now := now h; later := later h;
                  entropy := tl (entropy h); env := env h |} w,
     inr (hd [] (entropy h))).

(** ** storage.ts *)

Module Storage.

Definition TABLE_URGENCY : jsstring := js "sovereignurgency".
Definition TABLE_ARCHIVE : jsstring := js "sovereignarchive".
Definition PK_CONTACTS : jsstring := js "contacts".

(** [normalizeRowKey]: a sender id as a table row key. *)
Definition normalizeRowKey (raw : jsstring) : JsError + jsstring :=
  match encodeURIComponent raw with
  | inr e => inr (replacePercent e)
  | inl err => inl err
  end.

Definition isNotFoundError (err : JsError) : bool :=
  match err with
  | RestError (Some code) => code =? 404
  | _ => false
  end.

(** *** The table service behind [TableClient] *)

Definition scripted (b : Backend) : option JsError := hd None (faults b).

Definition receive (c : TableCall) (b : Backend) : Backend :=
  {| urgencyTable := urgencyTable b; archiveTable := archiveTable b;
     faults := tl (faults b); calls := calls b ++ [c] |}.

(** A request is logged; it fails as scripted, or else is served. *)
Definition request {A} (c : TableCall)
    (serve : Backend -> Backend * (JsError + A)) : M A :=
  fun w =>
    let b := receive c (backend w) in
    match scripted (backend w) with
    | Some e => (with_backend b w, inl e)
    | None => let (b', r) := serve b in (with_backend b' w, r)
    end.

Definition with_urgency (u : gmap (jsstring * jsstring) UrgencyTableEntry.t)
    (b : Backend) : Backend :=
  {| urgencyTable := u; archiveTable := archiveTable b; faults := faults b;
     calls := calls b |}.

Definition with_archive (a : gmap (jsstring * jsstring) ArchivedNoiseEntity.t)
    (b : Backend) : Backend :=
  {| urgencyTable := urgencyTable b; archiveTable := a; faults := faults b;
     calls := calls b |}.

(** Merge keeps the stored value of a property the update does not carry. *)
Definition mergeEntity (old new : UrgencyTableEntry.t) : UrgencyTableEntry.t :=
  {| UrgencyTableEntry.partitionKey := UrgencyTableEntry.partitionKey new;
     UrgencyTableEntry.rowKey := UrgencyTableEntry.rowKey new;
     UrgencyTableEntry.displayName := UrgencyTableEntry.displayName new;
     UrgencyTableEntry.isPriority := UrgencyTableEntry.isPriority new;
     UrgencyTableEntry.lastMessageAt :=
       match UrgencyTableEntry.lastMessageAt new with
       | Some x => Some x
       | None => UrgencyTableEntry.lastMessageAt old
       end;
     UrgencyTableEntry.lastRepliedAt :=
       match UrgencyTableEntry.lastRepliedAt new with
       | Some x => Some x
       | None => UrgencyTableEntry.lastRepliedAt old
       end;
     UrgencyTableEntry.notes :=
       match UrgencyTableEntry.notes new with
       | Some x => Some x
       | None => UrgencyTableEntry.notes old
       end |}.

Definition setLastMessageAt (ts : jsstring) (old : UrgencyTableEntry.t)
    : UrgencyTableEntry.t :=
  {| UrgencyTableEntry.partitionKey := UrgencyTableEntry.partitionKey old;
     UrgencyTableEntry.rowKey := UrgencyTableEntry.rowKey old;
     UrgencyTableEntry.displayName := UrgencyTableEntry.displayName old;
     UrgencyTableEntry.isPriority := UrgencyTableEntry.isPriority old;
     UrgencyTableEntry.lastMessageAt := Some ts;
     UrgencyTableEntry.lastRepliedAt := UrgencyTableEntry.lastRepliedAt old;
     UrgencyTableEntry.notes := UrgencyTableEntry.notes old |}.

Module TableClient.

(** [urgencyClient.getEntity(pk, rk)]: the entity, or a 404 rejection. *)
Definition getEntity (pk rk : jsstring) : M UrgencyTableEntry.t :=
  request (GetEntity TABLE_URGENCY pk rk)
    (fun b =>
       (b, match urgencyTable b !! (pk, rk) with
           | Some e => inr e
           | None => inl (RestError (Some 404))
           end)).

(** [urgencyClient.listEntities] filtered on the partition key, read to the
    end. *)
Definition listEntities (pk : jsstring) : M (list UrgencyTableEntry.t) :=
  request (ListEntities TABLE_URGENCY pk)
    (fun b =>
       (b, inr (map snd
                  (List.filter
                     (fun kv : jsstring * jsstring * UrgencyTableEntry.t =>
                        bool_decide (kv.1.1 = pk))
                     (map_to_list (urgencyTable b)))))).

(** [urgencyClient.upsertEntity(entity, "Merge")]. *)
Definition upsertEntity (pk rk : jsstring) (e : UrgencyTableEntry.t) : M unit :=
  request (UpsertEntity TABLE_URGENCY pk rk)
    (fun b =>
       let e' := match urgencyTable b !! (pk, rk) with
                 | Some old => mergeEntity old e
                 | None => e
                 end in
       (with_urgency (<[(pk, rk) := e']> (urgencyTable b)) b, inr tt)).

(** [urgencyClient.updateEntity({partitionKey, rowKey, lastMessageAt},
    "Merge")]: a 404 rejection when the entity does not exist. *)
Definition updateEntity (pk rk ts : jsstring) : M unit :=
  request (UpdateEntity TABLE_URGENCY pk rk)
    (fun b =>
       match urgencyTable b !! (pk, rk) with
       | Some old =>
         (with_urgency (<[(pk, rk) := setLastMessageAt ts old]> (urgencyTable b)) b,
          inr tt)
       | None => (b, inl (RestError (Some 404)))
       end).

(** [archiveClient.upsertEntity(entity, "Replace")]. *)
Definition upsertArchive (e : ArchivedNoiseEntity.t) : M unit :=
  let pk := ArchivedNoiseEntity.partitionKey e in
  let rk := ArchivedNoiseEntity.rowKey e in
  request (UpsertEntity TABLE_ARCHIVE pk rk)
    (fun b => (with_archive (<[(pk, rk) := e]> (archiveTable b)) b, inr tt)).

End TableClient.

(** *** [SovereignStorageClient] *)

Module SovereignStorageClient.

(** The client holds the connection string its two table clients were made
    from; one storage account is modelled, and every client talks to it. *)
Record t := { connectionString : jsstring }.

Section WithPlatform.
Context `{Platform}.

Definition getConnectionString (config : option SovereignFilterConfig.t)
    : M jsstring :=
  fun w =>
    let cs :=
      match config with
      | Some c =>
        match SovereignFilterConfig.azureStorageConnectionString c with
        | Some x => Some x
        | None => env (host w)
        end
      | None => env (host w)
      end in
    if negb (truthy cs) then (w, inl ConfigError) else (w, inr (cs ?? [])).

Definition fromConnectionString (cs : jsstring) : M unit :=
  match connectionStringFault cs with
  | Some e => throw e
  | None => ret tt
  end.

Definition new (config : option SovereignFilterConfig.t) : M t :=
  let! cs := getConnectionString config in
  do! fromConnectionString cs in
  do! fromConnectionString cs in
  ret {| connectionString := cs |}.

Definition getContact (this : t) (senderId : jsstring)
    : M (option UrgencyTableEntry.t) :=
  try_catch
    (let! key := liftE (normalizeRowKey senderId) in
     let! entity := TableClient.getEntity PK_CONTACTS key in
     ret (Some entity))
    (fun err => if isNotFoundError err then ret None else throw err).

Definition listContacts (this : t) : M (list UrgencyTableEntry.t) :=
  TableClient.listEntities PK_CONTACTS.

Definition listPriorityContacts (this : t) : M (list UrgencyTableEntry.t) :=
  let! all := listContacts this in
  ret (List.filter UrgencyTableEntry.isPriority all).

Definition upsertContact (this : t) (entry : UrgencyTableEntry.t) : M unit :=
  let! key := liftE (normalizeRowKey (UrgencyTableEntry.rowKey entry)) in
  TableClient.upsertEntity PK_CONTACTS key
    {| UrgencyTableEntry.partitionKey := PK_CONTACTS;
       UrgencyTableEntry.rowKey := key;
       UrgencyTableEntry.displayName := UrgencyTableEntry.displayName entry;
       UrgencyTableEntry.isPriority := UrgencyTableEntry.isPriority entry;
       UrgencyTableEntry.lastMessageAt := UrgencyTableEntry.lastMessageAt entry;
       UrgencyTableEntry.lastRepliedAt := UrgencyTableEntry.lastRepliedAt entry;
       UrgencyTableEntry.notes := UrgencyTableEntry.notes entry |}.

Definition touchContactLastMessage (this : t) (senderId : jsstring) : M unit :=
  let! key := liftE (normalizeRowKey senderId) in
  try_catch
    (let! t := Date_now in
     TableClient.updateEntity PK_CONTACTS key (toISOString t))
    (fun err => if negb (isNotFoundError err) then throw err else ret tt).

Definition archiveNoise (this : t) (entity : ArchivedNoiseEntity.t) : M unit :=
  TableClient.upsertArchive entity.

(** The filter of [findSilentContacts]: no timestamp, or one before the
    cutoff; a timestamp that does not parse compares false. *)
Definition isSilent (cutoff : Z) (c : UrgencyTableEntry.t) : bool :=
  if negb (truthy (UrgencyTableEntry.lastMessageAt c)) then true
  else
    match parseDate (UrgencyTableEntry.lastMessageAt c ?? []) with
    | Some t => t <? cutoff
    | None => false
    end.

Definition findSilentContacts (this : t) (silentHours : Z)
    : M (list UrgencyTableEntry.t) :=
  let! contacts := listContacts this in
  let! t := Date_now in
  let cutoff := t - silentHours * 60 * 60 * 1000 in
  ret (List.filter (isSilent cutoff) contacts).

End WithPlatform.
End SovereignStorageClient.

End Storage.
Export Storage.

(** ** filter.ts *)

Module Filter.

Import SovereignStorageClient.

(** [ctx.SenderId ?? ctx.From ?? ""]. *)
Definition senderOf (ctx : MsgContext.t) : jsstring :=
  (MsgContext.SenderId ctx ?? (MsgContext.From ctx ?? [])).

(** *** Message batching (in-memory queue) *)

Definition with_arrays (a : gmap loc (list BatchedMessage.t)) (h : Heap) : Heap :=
  {| arrays := a; queues := queues h; next := next h |}.

(** An array literal or spread: a new array. *)
Definition newArray (l : list BatchedMessage.t) : M loc :=
  fun w =>
    let h := heap w in
    (with_heap {| arrays := <[next h := l]> (arrays h); queues := queues h;
                  next := Pos.succ (next h) |} w,
     inr (next h)).

(** Reading through a reference.  The references of the program come from
    [newArray] and [MessageBatchQueue.new] and always name an object; for a
    reference that names none the model answers with TypeError. *)
Definition readArray (a : loc) : M (list BatchedMessage.t) :=
  fun w =>
    match arrays (heap w) !! a with
    | Some l => (w, inr l)
    | None => (w, inl TypeError)
    end.

(** [a.push(msg)]. *)
Definition push (a : loc) (msg : BatchedMessage.t) : M unit :=
  fun w =>
    match arrays (heap w) !! a with
    | Some l =>
      (with_heap (with_arrays (<[a := l ++ [msg]]> (arrays (heap w))) (heap w)) w,
       inr tt)
    | None => (w, inl TypeError)
    end.

Module MessageBatchQueue.

(** [this.queue]. *)
Definition getQueue (this : loc) : M loc :=
  fun w =>
    match queues (heap w) !! this with
    | Some a => (w, inr a)
    | None => (w, inl TypeError)
    end.

(** [this.queue = a]. *)
Definition setQueue (this a : loc) : M unit :=
  fun w =>
    let h := heap w in
    (with_heap {| arrays := arrays h; queues := <[this := a]> (queues h);
                  next := next h |} w,
     inr tt).

(** [new MessageBatchQueue()]: the field initialiser [queue = []]. *)
Definition new : M loc :=
  let! a := newArray [] in
  fun w =>
    let h := heap w in
    (with_heap {| arrays := arrays h; queues := <[next h := a]> (queues h);
                  next := Pos.succ (next h) |} w,
     inr (next h)).

Definition enqueue (this : loc) (msg : BatchedMessage.t) : M unit :=
  let! q := getQueue this in
  push q msg.

Definition drain (this : loc) : M loc :=
  let! q := getQueue this in
  let! l := readArray q in
  let! batch := newArray l in
  let! fresh := newArray [] in
  do! setQueue this fresh in
  ret batch.

Definition peek (this : loc) : M loc :=
  getQueue this.

Definition size (this : loc) : M nat :=
  let! q := getQueue this in
  let! l := readArray q in
  ret (length l).

End MessageBatchQueue.

(** [SovereignFilterOutcome]: a union of three object types. *)
Inductive Action :=
  | deliver_raw
  | batch
  | archive.

Inductive SovereignFilterOutcome :=
  | DeliverRaw
  | Batch
  | Archive.

Definition action (o : SovereignFilterOutcome) : Action :=
  match o with
  | DeliverRaw => deliver_raw
  | Batch => batch
  | Archive => archive
  end.

Definition classification (o : SovereignFilterOutcome) : SenderClassification :=
  match o with
  | DeliverRaw => priority_human
  | Batch => known_human
  | Archive => system_noise
  end.

Section WithPlatform.
Context `{Platform}.

(** *** Classification *)

Definition classifySender (ctx : MsgContext.t) (storage : SovereignStorageClient.t)
    : M ClassificationResult.t :=
  let senderId := senderOf ctx in
  if negb (truthy (Some senderId)) then
    ret {| ClassificationResult.classification := system_noise;
           ClassificationResult.contactEntry := None |}
  else
    let! contact := getContact storage senderId in
    match contact with
    | Some c =>
      ret {| ClassificationResult.classification :=
               if UrgencyTableEntry.isPriority c then priority_human
               else known_human;
             ClassificationResult.contactEntry := Some c |}
    | None =>
      ret {| ClassificationResult.classification := system_noise;
             ClassificationResult.contactEntry := None |}
    end.

(** *** Relationship maintenance *)

Definition buildNudge (contact : UrgencyTableEntry.t) (silentHours : Z)
    : M RelationshipNudge.t :=
  let! hours :=
    if truthy (UrgencyTableEntry.lastMessageAt contact) then
      let! t := Date_now in
      ret match parseDate (UrgencyTableEntry.lastMessageAt contact ?? []) with
          | Some last => Int (roundDiv (t - last) (60 * 60 * 1000))
          | None => NaN
          end
    else ret (Int silentHours) in
  let suggestion :=
    if truthy (UrgencyTableEntry.notes contact) then
      js "Consider acknowledging " ++ UrgencyTableEntry.displayName contact
      ++ js " for: " ++ (UrgencyTableEntry.notes contact ?? [])
    else
      js "It's been " ++ numberToString hours
      ++ js " hours since you last connected with "
      ++ UrgencyTableEntry.displayName contact
      ++ js ". Consider reaching out." in
  ret {| RelationshipNudge.contactName := UrgencyTableEntry.displayName contact;
         RelationshipNudge.contactId := UrgencyTableEntry.rowKey contact;
         RelationshipNudge.silentHours := hours;
         RelationshipNudge.suggestion := suggestion |}.

Definition generateRelationshipNudges (storage : SovereignStorageClient.t)
    (config : option SovereignFilterConfig.t) : M (list RelationshipNudge.t) :=
  let config := config ?? DEFAULT_SOVEREIGN_FILTER_CONFIG in
  let! silent :=
    findSilentContacts storage (SovereignFilterConfig.nudgeAfterSilentHours config) in
  mapM (fun contact =>
          buildNudge contact (SovereignFilterConfig.nudgeAfterSilentHours config))
       silent.

(** *** Silent archive helper *)

Definition archiveSystemNoise (ctx : MsgContext.t)
    (storage : SovereignStorageClient.t) : M unit :=
  let! now := Date_now in
  let! rowKey :=
    match MsgContext.MessageSid ctx with
    | Some sid => ret sid
    | None =>
      let! t := Date_now in
      let! r := randomSuffix in
      ret (intToString t ++ js "-" ++ r)
    end in
  let entity :=
    {| ArchivedNoiseEntity.partitionKey := take 10 (toISOString now);
       ArchivedNoiseEntity.rowKey := rowKey;
       ArchivedNoiseEntity.provider :=
         (MsgContext.Provider ctx ?? (MsgContext.Surface ctx ?? js "unknown"));
       ArchivedNoiseEntity.senderId :=
         (MsgContext.SenderId ctx ?? (MsgContext.From ctx ?? js "unknown"));
       ArchivedNoiseEntity.senderName := MsgContext.SenderName ctx;
       ArchivedNoiseEntity.body := (MsgContext.Body ctx ?? []);
       ArchivedNoiseEntity.receivedAt := toISOString now;
       ArchivedNoiseEntity.sessionKey := MsgContext.SessionKey ctx |} in
  archiveNoise storage entity.

(** *** Sovereign dispatch wrapper *)

Definition applySovereignFilter (ctx : MsgContext.t)
    (storage : SovereignStorageClient.t) (batchQueue : loc)
    : M SovereignFilterOutcome :=
  let! r := classifySender ctx storage in
  match ClassificationResult.classification r with
  | priority_human =>
    do! void (touchContactLastMessage storage (senderOf ctx)) in
    ret DeliverRaw
  | known_human =>
    do! void (touchContactLastMessage storage (senderOf ctx)) in
    let! t := Date_now in
    do! MessageBatchQueue.enqueue batchQueue
          {| BatchedMessage.senderId := senderOf ctx;
             BatchedMessage.senderName := MsgContext.SenderName ctx;
             BatchedMessage.body := (MsgContext.Body ctx ?? []);
             BatchedMessage.provider :=
               match MsgContext.Provider ctx with
               | Some p => Some p
               | None => MsgContext.Surface ctx
               end;
             BatchedMessage.receivedAt := toISOString t;
             BatchedMessage.sessionKey := MsgContext.SessionKey ctx;
             BatchedMessage.originatingChannel := MsgContext.OriginatingChannel ctx;
             BatchedMessage.originatingTo := MsgContext.OriginatingTo ctx |} in
    ret Batch
  | system_noise =>
    do! archiveSystemNoise ctx storage in
    ret Archive
  end.

End WithPlatform.
End Filter.
Export Filter.

(** ** dispatch-integration.ts *)

Module Dispatch.

(** [SovereignDispatchResult]: the result of normal dispatch extended with
    [intercepted: false] and the outcome, or an intercept result. *)
Inductive SovereignDispatchResult (R : Type) :=
  | PassedOn (result : R) (outcome : SovereignFilterOutcome)
  | Intercepted (outcome : SovereignFilterOutcome).
Arguments PassedOn {R} result outcome.
Arguments Intercepted {R} outcome.

Definition intercepted {R} (r : SovereignDispatchResult R) : bool :=
  match r with
  | PassedOn _ _ => false
  | Intercepted _ => true
  end.

Definition outcome {R} (r : SovereignDispatchResult R) : SovereignFilterOutcome :=
  match r with
  | PassedOn _ o => o
  | Intercepted o => o
  end.

Section WithPipeline.
Context `{Platform}.

(** The dispatch pipeline is outside this module: its state, the types it
    exchanges, [dispatchInboundMessage] and the dispatcher's [markComplete]
    are left abstract.  The pipeline is handed neither the storage client
    nor the batch queue. *)
Context {Pipeline OpenClawConfig ReplyDispatcher GetReplyOptions ReplyResolver
         DispatchInboundResult : Type}.

Record DispatchInboundParams := {
  d_ctx : MsgContext.t;
  d_cfg : OpenClawConfig;
  d_dispatcher : ReplyDispatcher;
  d_replyOptions : option GetReplyOptions;
  d_replyResolver : option ReplyResolver
}.

Variable dispatchInboundMessage :
  DispatchInboundParams -> Eff Pipeline DispatchInboundResult.
Variable markComplete : ReplyDispatcher -> Eff Pipeline unit.

Record Params := {
  ctx : MsgContext.t;
  cfg : OpenClawConfig;
  dispatcher : ReplyDispatcher;
  replyOptions : option GetReplyOptions;
  replyResolver : option ReplyResolver;
  filterConfig : option SovereignFilterConfig.t;
  storage : option SovereignStorageClient.t;
  batchQueue : option loc
}.

(** A computation of the filter, run in the world next to the pipeline. *)
Definition inWorld {A} (m : M A) : Eff (World * Pipeline) A :=
  fun s => let (w', r) := m s.1 in ((w', s.2), r).

(** A computation of the pipeline, run next to the world. *)
Definition inPipeline {A} (m : Eff Pipeline A) : Eff (World * Pipeline) A :=
  fun s => let (p', r) := m s.2 in ((s.1, p'), r).

Definition normalDispatch (params : Params)
    : Eff (World * Pipeline) DispatchInboundResult :=
  inPipeline (dispatchInboundMessage
    {| d_ctx := ctx params; d_cfg := cfg params;
       d_dispatcher := dispatcher params;
       d_replyOptions := replyOptions params;
       d_replyResolver := replyResolver params |}).

Definition dispatchWithSovereignFilter (params : Params)
    : Eff (World * Pipeline) (SovereignDispatchResult DispatchInboundResult) :=
  let config := filterConfig params ?? DEFAULT_SOVEREIGN_FILTER_CONFIG in
  if negb (SovereignFilterConfig.enabled config) then
    let! result := normalDispatch params in
    ret (PassedOn result DeliverRaw)
  else
    let! storage :=
      match storage params with
      | Some s => ret s
      | None => inWorld (SovereignStorageClient.new (Some config))
      end in
    let! batchQueue :=
      match batchQueue params with
      | Some q => ret q
      | None => inWorld MessageBatchQueue.new
      end in
    let! outcome := inWorld (applySovereignFilter (ctx params) storage batchQueue) in
    match action outcome with
    | deliver_raw =>
      let! result := normalDispatch params in
      ret (PassedOn result outcome)
    | batch =>
      do! inPipeline (markComplete (dispatcher params)) in
      ret (Intercepted outcome)
    | archive =>
      do! inPipeline (markComplete (dispatcher params)) in
      ret (Intercepted outcome)
    end.

End WithPipeline.
End Dispatch.
Export Dispatch.

(** ** A reference host *)

Module ReferenceHost.

Definition pad2 (z : Z) : jsstring := [48 + z / 10 mod 10; 48 + z mod 10].
Definition pad3 (z : Z) : jsstring :=
  [48 + z / 100 mod 10; 48 + z / 10 mod 10; 48 + z mod 10].
Definition pad4 (z : Z) : jsstring :=
  [48 + z / 1000 mod 10; 48 + z / 100 mod 10; 48 + z / 10 mod 10; 48 + z mod 10].

(** Year, month and day of a day number counted from 1970-01-01. *)
Definition civilFromDays (days : Z) : Z * Z * Z :=
  let z := days + 719468 in
  let era := z / 146097 in
  let doe := z - era * 146097 in
  let yoe := (doe - doe / 1460 + doe / 36524 - doe / 146096) / 365 in
  let doy := doe - (365 * yoe + yoe / 4 - yoe / 100) in
  let mp := (5 * doy + 2) / 153 in
  let d := doy - (153 * mp + 2) / 5 + 1 in
  let m := if mp <? 10 then mp + 3 else mp - 9 in
  (if m <=? 2 then yoe + era * 400 + 1 else yoe + era * 400, m, d).

Definition daysFromCivil (y m d : Z) : Z :=
  let y := if m <=? 2 then y - 1 else y in
  let era := y / 400 in
  let yoe := y - era * 400 in
  let doy := (153 * (if 2 <? m then m - 3 else m + 9) + 2) / 5 + d - 1 in
  let doe := yoe * 365 + yoe / 4 - yoe / 100 + doy in
  era * 146097 + doe - 719468.

(** [YYYY-MM-DDTHH:mm:ss.sssZ], for the years 0000 to 9999. *)
Definition isoString (ms : Z) : jsstring :=
  let '(y, m, d) := civilFromDays (ms / 86400000) in
  let r := ms mod 86400000 in
  pad4 y ++ js "-" ++ pad2 m ++ js "-" ++ pad2 d ++ js "T"
  ++ pad2 (r / 3600000) ++ js ":" ++ pad2 (r / 60000 mod 60) ++ js ":"
  ++ pad2 (r / 1000 mod 60) ++ js "." ++ pad3 (r mod 1000) ++ js "Z".

Definition digits (s : jsstring) : option Z :=
  fold_left
    (fun acc c =>
       match acc with
       | Some a => if (48 <=? c) && (c <=? 57) then Some (10 * a + (c - 48)) else None
       | None => None
       end)
    s (Some 0).

Definition field (s : jsstring) (from len : nat) : option Z :=
  digits (take len (drop from s)).

(** The time value of a string in the format of [isoString]; any other
    string is taken to be an invalid date. *)
Definition isoParse (s : jsstring) : option Z :=
  if negb ((length s =? 24)%nat
           && bool_decide (take 1 (drop 4 s) = js "-")
           && bool_decide (take 1 (drop 7 s) = js "-")
           && bool_decide (take 1 (drop 10 s) = js "T")
           && bool_decide (take 1 (drop 13 s) = js ":")
           && bool_decide (take 1 (drop 16 s) = js ":")
           && bool_decide (take 1 (drop 19 s) = js ".")
           && bool_decide (drop 23 s = js "Z"))
  then None
  else
    match field s 0 4, field s 5 2, field s 8 2, field s 11 2, field s 14 2,
          field s 17 2, field s 20 3 with
    | Some y, Some m, Some d, Some hh, Some mm, Some ss, Some f =>
      if (1 <=? m) && (m <=? 12) && (1 <=? d) && (d <=? 31) && (hh <=? 23)
         && (mm <=? 59) && (ss <=? 59)
      then Some (daysFromCivil y m d * 86400000 + hh * 3600000 + mm * 60000
                 + ss * 1000 + f)
      else None
    | _, _, _, _, _, _, _ => None
    end.

Fixpoint dropZeros (s : jsstring) : jsstring :=
  match s with
  | 48 :: r => dropZeros r
  | _ => s
  end.

(** [d.ddde+n] from the decimal digits of the integer, the zeros that end
    them left out: the form Number::toString gives to an integer of
    magnitude 10^21 or more whose digits other than those zeros are at most
    seventeen. *)
Definition exponentForm (z : Z) : jsstring :=
  match decimalString (Z.abs z) with
  | [] => []
  | d :: r =>
    (if z <? 0 then [45] else [])
    ++ d :: match rev (dropZeros (rev r)) with
            | [] => []
            | f => 46 :: f
            end
    ++ js "e+" ++ decimalString (Z.of_nat (length r))
  end.

End ReferenceHost.

#[global] Instance referenceHost : Platform :=
  {| toISOString := ReferenceHost.isoString;
     parseDate := ReferenceHost.isoParse;
     exponentString := ReferenceHost.exponentForm;
     connectionStringFault := fun _ => None |}.

(** ** Sample states *)

Definition emptyBackend : Backend :=
  {| urgencyTable := ∅; archiveTable := ∅; faults := []; calls := [] |}.

Definition emptyHeap : Heap :=
  {| arrays := ∅; queues := ∅; next := 1%positive |}.

Definition idleHost : Host :=
  {| now := 0; later := []; entropy := []; env := None |}.

Definition emptyWorld : World :=
  {| backend := emptyBackend; heap := emptyHeap; host := idleHost;
     unawaited := [] |}.

Definition sampleMessage (sender text : string) : BatchedMessage.t :=
  {| BatchedMessage.senderId := js sender;
     BatchedMessage.senderName := None;
     BatchedMessage.body := js text;
     BatchedMessage.provider := None;
     BatchedMessage.receivedAt := js "2026-01-01T00:00:00.000Z";
     BatchedMessage.sessionKey := None;
     BatchedMessage.originatingChannel := None;
     BatchedMessage.originatingTo := None |}.

Definition sampleContact (id name : string) (priority : bool)
    (last notes : option string) : UrgencyTableEntry.t :=
  {| UrgencyTableEntry.partitionKey := PK_CONTACTS;
     UrgencyTableEntry.rowKey := js id;
     UrgencyTableEntry.displayName := js name;
     UrgencyTableEntry.isPriority := priority;
     UrgencyTableEntry.lastMessageAt := option_map js last;
     UrgencyTableEntry.lastRepliedAt := None;
     UrgencyTableEntry.notes := option_map js notes |}.

(** A world whose registry holds [contacts], whose service answers the
    coming requests as [script] says, and whose clock reads [t]. *)
Definition sampleWorld (contacts : list UrgencyTableEntry.t)
    (script : list (option JsError)) (t : Z) : World :=
  {| backend :=
       {| urgencyTable :=
            list_to_map
              (map (fun c => ((PK_CONTACTS, UrgencyTableEntry.rowKey c), c))
                   contacts);
          archiveTable := ∅; faults := script; calls := [] |};
     heap := {| arrays := {[ 1%positive := [] ]};
                queues := {[ 2%positive := 1%positive ]};
                next := 3%positive |};
     host := {| now := t; later := []; entropy := [js "k3x9q1"]; env := None |};
     unawaited := [] |}.

Definition sampleStorage : SovereignStorageClient.t :=
  {| SovereignStorageClient.connectionString := js "UseDevelopmentStorage=true" |}.

(** A message from [sender] with the body [text]. *)
Definition sampleCtx (sender text : string) : MsgContext.t :=
  {| MsgContext.Body := Some (js text);
     MsgContext.From := Some (js sender);
     MsgContext.SenderId := Some (js sender);
     MsgContext.SenderName := Some (js "Alice");
     MsgContext.Provider := Some (js "telegram");
     MsgContext.Surface := Some (js "telegram");
     MsgContext.SessionKey := Some (js "agent:telegram:user:user-123");
     MsgContext.MessageSid := None;
     MsgContext.OriginatingChannel := None;
     MsgContext.OriginatingTo := None |}.

(** A pipeline that records what the dispatcher is asked to do. *)
Definition sampleDispatch
    : @DispatchInboundParams unit unit unit unit -> Eff (list string) nat :=
  fun _ log => (log ++ ["sendFinalReply"%string], inr (length log)).

Definition sampleMarkComplete : unit -> Eff (list string) unit :=
  fun _ log => (log ++ ["markComplete"%string], inr tt).

Definition sampleParams (ctx : MsgContext.t)
    (config : option SovereignFilterConfig.t) : @Params unit unit unit unit :=
  {| ctx := ctx; cfg := tt; dispatcher := tt; replyOptions := None;
     replyResolver := None; filterConfig := config;
     storage := Some sampleStorage; batchQueue := Some 2%positive |}.

(** ** Vocabulary of the properties *)

(** What an encoded string is made of: unreserved units and the escape. *)
Definition encodedUnit (c : Z) : Prop := unreserved c = true \/ c = 37.

(** The queue object [q] exists and its array holds [l]. *)
Definition queueHolds (q : loc) (l : list BatchedMessage.t) (w : World) : Prop :=
  exists a, queues (heap w) !! q = Some a /\ arrays (heap w) !! a = Some l.

(** How a promise was settled, its value forgotten. *)
Definition settled {A} (r : JsError + A) : JsError + unit :=
  match r with
  | inl e => inl e
  | inr _ => inr tt
  end.

(** The archive writes among the requests the service has received. *)
Definition isArchiveWrite (c : TableCall) : bool :=
  match c with
  | UpsertEntity table _ _ => bool_decide (table = TABLE_ARCHIVE)
  | _ => false
  end.

Definition archiveWrites (w : World) : nat :=
  length (List.filter isArchiveWrite (calls (backend w))).

Section SenderStatus.
Context `{Platform}.

(** The sender of [ctx] is unknown: the id is empty (and the world [w] is
    left as it is), or the lookup answers that there is no record. *)
Definition unknownSender (ctx : MsgContext.t) (storage : SovereignStorageClient.t)
    (w w1 : World) : Prop :=
  (senderOf ctx = [] /\ w1 = w) \/
  (senderOf ctx <> [] /\
   SovereignStorageClient.getContact storage (senderOf ctx) w = (w1, inr None)).

(** The sender of [ctx] is registered: the lookup answers with [c]. *)
Definition registeredSender (ctx : MsgContext.t)
    (storage : SovereignStorageClient.t) (c : UrgencyTableEntry.t)
    (w w1 : World) : Prop :=
  senderOf ctx <> [] /\
  SovereignStorageClient.getContact storage (senderOf ctx) w = (w1, inr (Some c)).

(** The entity [archiveSystemNoise] builds for [ctx] when started in [w]:
    the first clock reading dates it; without a message id the row key is
    made of the second reading and a random suffix. *)
Definition noiseEntity (ctx : MsgContext.t) (w : World) : ArchivedNoiseEntity.t :=
  let h := host w in
  {| ArchivedNoiseEntity.partitionKey := take 10 (toISOString (now h));
     ArchivedNoiseEntity.rowKey :=
       match MsgContext.MessageSid ctx with
       | Some sid => sid
       | None =>
         intToString (hd (now h) (later h)) ++ js "-" ++ hd [] (entropy h)
       end;
     ArchivedNoiseEntity.provider :=
       (MsgContext.Provider ctx ?? (MsgContext.Surface ctx ?? js "unknown"));
     ArchivedNoiseEntity.senderId :=
       (MsgContext.SenderId ctx ?? (MsgContext.From ctx ?? js "unknown"));
     ArchivedNoiseEntity.senderName := MsgContext.SenderName ctx;
     ArchivedNoiseEntity.body := (MsgContext.Body ctx ?? []);
     ArchivedNoiseEntity.receivedAt := toISOString (now h);
     ArchivedNoiseEntity.sessionKey := MsgContext.SessionKey ctx |}.

End SenderStatus.

(** The clock readings of a run started in [w]. *)
Definition readings (w : World) : list Z := now (host w) :: later (host w).

(** The contacts the registry of [w] enumerates. *)
Definition listed (w : World) : list UrgencyTableEntry.t :=
  map snd
    (List.filter
       (fun kv : jsstring * jsstring * UrgencyTableEntry.t =>
          bool_decide (kv.1.1 = PK_CONTACTS))
       (map_to_list (urgencyTable (backend w)))).

Section Nudges.
Context `{Platform}.

(** [n] is the nudge for the contact [c] under the threshold [T], built
    during a run started in [w]: without a timestamp the silent hours are
    the threshold; with one, they are the hours elapsed between a reading
    of the clock and the timestamp, rounded; the notes, when there are any,
    end the suggestion. *)
Definition nudgeFor (T : Z) (w : World) (c : UrgencyTableEntry.t)
    (n : RelationshipNudge.t) : Prop :=
  RelationshipNudge.contactName n = UrgencyTableEntry.displayName c /\
  RelationshipNudge.contactId n = UrgencyTableEntry.rowKey c /\
  (truthy (UrgencyTableEntry.lastMessageAt c) = false ->
   RelationshipNudge.silentHours n = Int T) /\
  (truthy (UrgencyTableEntry.lastMessageAt c) = true ->
   exists t,
     In t (readings w) /\
     RelationshipNudge.silentHours n
     = match parseDate (UrgencyTableEntry.lastMessageAt c ?? []) with
       | Some last => Int (roundDiv (t - last) (60 * 60 * 1000))
       | None => NaN
       end) /\
  (truthy (UrgencyTableEntry.notes c) = true ->
   RelationshipNudge.suggestion n
   = js "Consider acknowledging " ++ UrgencyTableEntry.displayName c
     ++ js " for: " ++ (UrgencyTableEntry.notes c ?? [])).

End Nudges.

(** * Properties *)

(** ** Row keys *)

Section RowKeys.

(** Induction that follows [encodeURIComponent]: one unit, or a pair. *)
Lemma units_ind (P : jsstring -> Prop) :
  P [] ->
  (forall c rest, P rest ->
     (forall d rest', rest = d :: rest' -> P rest') -> P (c :: rest)) ->
  forall s, P s.
Proof.
  intros Hnil Hcons s.
  assert (P s /\ forall d rest', s = d :: rest' -> P rest') as [Hs _];
    [|exact Hs].
  induction s as [|c rest [IH1 IH2]].
  - split; [exact Hnil|]. intros d rest' Heq. discriminate Heq.
  - split.
    + apply Hcons; assumption.
    + intros d rest' Heq. injection Heq as _ <-. exact IH1.
Qed.

Lemma unreserved_not_reserved c : unreserved c = true -> reserved c = false.
Proof.
  unfold unreserved, reserved. intros Hu.
  repeat (apply orb_false_intro); apply Z.eqb_neq; intros ->;
    vm_compute in Hu; discriminate Hu.
Qed.

Lemma hexDigit_unreserved d : unreserved (hexDigit d) = true.
Proof.
  unfold hexDigit.
  assert (0 <= Z.land d 15 < 16) as Hr.
  { change 15 with (Z.ones 4). rewrite Z.land_ones by lia.
    apply Z.mod_pos_bound. lia. }
  unfold unreserved.
  destruct (Z.ltb_spec (Z.land d 15) 10).
  - replace ((48 <=? 48 + Z.land d 15) && (48 + Z.land d 15 <=? 57))
      with true; [rewrite ?orb_true_r; reflexivity|].
    symmetry. apply andb_true_intro. split; apply Z.leb_le; lia.
  - replace ((65 <=? 55 + Z.land d 15) && (55 + Z.land d 15 <=? 90))
      with true; [reflexivity|].
    symmetry. apply andb_true_intro. split; apply Z.leb_le; lia.
Qed.

Lemma percentOctet_units b : Forall encodedUnit (percentOctet b).
Proof.
  unfold percentOctet.
  constructor; [right; reflexivity|].
  constructor; [left; apply hexDigit_unreserved|].
  constructor; [left; apply hexDigit_unreserved|].
  constructor.
Qed.

Lemma escapeCodePoint_units cp : Forall encodedUnit (escapeCodePoint cp).
Proof.
  unfold escapeCodePoint.
  induction (utf8 cp) as [|b bs IH]; simpl.
  - constructor.
  - change (Forall encodedUnit (percentOctet b ++ concat (map percentOctet bs))).
    apply Forall_app. split; [apply percentOctet_units|exact IH].
Qed.

Lemma encodeURIComponent_units s :
  forall r, encodeURIComponent s = inr r -> Forall encodedUnit r.
Proof.
  induction s as [|c rest IH1 IH2] using units_ind; intros r Hr; simpl in Hr.
  - injection Hr as <-. constructor.
  - destruct (unreserved c) eqn:Hu.
    { destruct (encodeURIComponent rest) as [e|r0]; [discriminate Hr|].
      injection Hr as <-. constructor; [left; exact Hu|]. apply IH1.
      reflexivity. }
    destruct (is_trail c); [discriminate Hr|].
    destruct (is_lead c).
    + destruct rest as [|d rest']; [discriminate Hr|].
      destruct (is_trail d); [|discriminate Hr].
      destruct (encodeURIComponent rest') as [e|r0] eqn:Hrest;
        [discriminate Hr|].
      injection Hr as <-. apply Forall_app. split.
      * apply escapeCodePoint_units.
      * apply (IH2 d rest' eq_refl). exact Hrest.
    + destruct (encodeURIComponent rest) as [e|r0]; [discriminate Hr|].
      injection Hr as <-. apply Forall_app. split.
      * apply escapeCodePoint_units.
      * apply IH1. reflexivity.
Qed.

Lemma encodeURIComponent_well_formed s :
  well_formed s = true -> exists r, encodeURIComponent s = inr r.
Proof.
  induction s as [|c rest IH1 IH2] using units_ind; intros Hwf; simpl in *.
  - eexists. reflexivity.
  - destruct (unreserved c).
    { destruct (IH1 Hwf) as [r ->]. eexists. reflexivity. }
    destruct (is_trail c); [discriminate Hwf|].
    destruct (is_lead c).
    + destruct rest as [|d rest']; [discriminate Hwf|].
      apply andb_prop in Hwf as [-> Hwf].
      destruct (IH2 d rest' eq_refl Hwf) as [r ->]. eexists. reflexivity.
    + destruct (IH1 Hwf) as [r ->]. eexists. reflexivity.
Qed.

Lemma encodeURIComponent_ill_formed s :
  well_formed s = false -> encodeURIComponent s = inl URIError.
Proof.
  induction s as [|c rest IH1 IH2] using units_ind; intros Hwf; simpl in *.
  - discriminate Hwf.
  - destruct (unreserved c).
    { rewrite (IH1 Hwf). reflexivity. }
    destruct (is_trail c); [reflexivity|].
    destruct (is_lead c).
    + destruct rest as [|d rest']; [reflexivity|].
      destruct (is_trail d); [|reflexivity]. simpl in Hwf.
      rewrite (IH2 d rest' eq_refl Hwf). reflexivity.
    + rewrite (IH1 Hwf). reflexivity.
Qed.

Lemma encodeURIComponent_error s :
  forall e, encodeURIComponent s = inl e -> e = URIError.
Proof.
  induction s as [|c rest IH1 IH2] using units_ind; intros e He; simpl in He.
  - discriminate He.
  - destruct (unreserved c).
    { destruct (encodeURIComponent rest) as [e0|r0]; [|discriminate He].
      injection He as <-. apply IH1. reflexivity. }
    destruct (is_trail c); [injection He as <-; reflexivity|].
    destruct (is_lead c).
    + destruct rest as [|d rest']; [injection He as <-; reflexivity|].
      destruct (is_trail d); [|injection He as <-; reflexivity].
      destruct (encodeURIComponent rest') as [e0|r0] eqn:Hrest;
        [|discriminate He].
      injection He as <-. apply (IH2 d rest' eq_refl). exact Hrest.
    + destruct (encodeURIComponent rest) as [e0|r0]; [|discriminate He].
      injection He as <-. apply IH1. reflexivity.
Qed.

Lemma normalizeRowKey_error raw e :
  normalizeRowKey raw = inl e -> e = URIError.
Proof.
  unfold normalizeRowKey. intros He.
  destruct (encodeURIComponent raw) as [e0|r] eqn:Henc; [|discriminate He].
  injection He as <-. exact (encodeURIComponent_error raw e0 Henc).
Qed.

Lemma encodeURIComponent_unreserved s :
  forallb unreserved s = true -> encodeURIComponent s = inr s.
Proof.
  induction s as [|c rest IH]; intros Hs; simpl in *; [reflexivity|].
  apply andb_prop in Hs as [-> Hs]. rewrite (IH Hs). reflexivity.
Qed.

Lemma replacePercent_unreserved s :
  forallb unreserved s = true -> replacePercent s = s.
Proof.
  induction s as [|c rest IH]; intros Hs; simpl in *; [reflexivity|].
  apply andb_prop in Hs as [Hc Hs]. rewrite (IH Hs).
  destruct (Z.eqb_spec c 37) as [->|]; [discriminate Hc|reflexivity].
Qed.

Lemma replacePercent_safe s :
  Forall encodedUnit s -> Forall (fun c => reserved c = false) (replacePercent s).
Proof.
  induction 1 as [|c rest Hc _ IH]; simpl; constructor; [|exact IH].
  destruct (Z.eqb_spec c 37) as [->|Hne]; [reflexivity|].
  destruct Hc as [Hc|Hc]; [|contradiction].
  apply unreserved_not_reserved. exact Hc.
Qed.

Lemma well_formed_unreserved s :
  forallb unreserved s = true -> well_formed s = true.
Proof.
  induction s as [|c rest IH]; intros Hs; simpl in *; [reflexivity|].
  apply andb_prop in Hs as [-> Hs]. exact (IH Hs).
Qed.

(** A string without surrogate units is well formed. *)
Lemma well_formed_no_surrogates s :
  Forall (fun c => is_lead c = false /\ is_trail c = false) s ->
  well_formed s = true.
Proof.
  induction 1 as [|c rest [Hlead Htrail] _ IH]; simpl; [reflexivity|].
  rewrite Hlead, Htrail. destruct (unreserved c); exact IH.
Qed.

(** The cases of storage.test.ts. *)
Example normalizeRowKey_slashes :
  normalizeRowKey (js "a/b/c") = inr (js "a$2Fb$2Fc").
Proof. reflexivity. Qed.

Example normalizeRowKey_backslash :
  normalizeRowKey (js "a\b") = inr (js "a$5Cb").
Proof. reflexivity. Qed.

Example normalizeRowKey_hash :
  normalizeRowKey (js "a#b") = inr (js "a$23b").
Proof. reflexivity. Qed.

Example normalizeRowKey_question :
  normalizeRowKey (js "a?b") = inr (js "a$3Fb").
Proof. reflexivity. Qed.

Example normalizeRowKey_user123 :
  normalizeRowKey (js "user123") = inr (js "user123").
Proof. reflexivity. Qed.

(** Beyond ASCII: U+00E9, and U+1F600 given by its surrogate pair. *)
Example normalizeRowKey_latin :
  normalizeRowKey [233] = inr (js "$C3$A9").
Proof. reflexivity. Qed.

Example normalizeRowKey_astral :
  normalizeRowKey [55357; 56832] = inr (js "$F0$9F$98$80").
Proof. reflexivity. Qed.

End RowKeys.

(** C7 (as amended).  For every input string without an unpaired surrogate,
    [normalizeRowKey] produces a key, and that key contains none of the
    characters [/], [\], [#], [?] and no percent sign; on a string made only
    of unreserved characters the key is the input itself.  On a string with
    an unpaired surrogate it raises URIError. *)
Theorem normalizeRowKey_safe (raw : jsstring) :
  if well_formed raw then
    exists key,
      normalizeRowKey raw = inr key /\
      Forall (fun c => reserved c = false) key /\
      (forallb unreserved raw = true -> key = raw)
  else normalizeRowKey raw = inl URIError.
Proof.
  unfold normalizeRowKey. destruct (well_formed raw) eqn:Hwf.
  - destruct (encodeURIComponent_well_formed raw Hwf) as [r Hr]. rewrite Hr.
    exists (replacePercent r). split; [reflexivity|]. split.
    + apply replacePercent_safe. exact (encodeURIComponent_units raw r Hr).
    + intros Hu. rewrite (encodeURIComponent_unreserved raw Hu) in Hr.
      injection Hr as <-. apply replacePercent_unreserved. exact Hu.
  - rewrite (encodeURIComponent_ill_formed raw Hwf). reflexivity.
Qed.

(** The key of a string of hostile characters, and of ["user123"]. *)
Lemma normalizeRowKey_safe_witness :
  (exists key,
     normalizeRowKey (js "a/b\c#d?e%f") = inr key /\
     Forall (fun c => reserved c = false) key)
  /\ normalizeRowKey (js "user123") = inr (js "user123").
Proof.
  split.
  - destruct (normalizeRowKey_safe (js "a/b\c#d?e%f")) as (key & Hkey & Hsafe & _).
    exists key. split; assumption.
  - destruct (normalizeRowKey_safe (js "user123")) as (key & Hkey & _ & Hid).
    rewrite Hkey, (Hid eq_refl). reflexivity.
Defined.

(** C7 fails as stated: a string that is an unpaired surrogate has no key,
    [encodeURIComponent] raises URIError. *)
Lemma normalizeRowKey_unpaired_surrogate :
  normalizeRowKey [55296] = inl URIError /\
  ~ (exists key, normalizeRowKey [55296] = inr key /\
                 Forall (fun c => reserved c = false) key).
Proof.
  split; [reflexivity|]. intros (key & Hkey & _). discriminate Hkey.
Qed.

(** ** The batch queue *)

Section Queue.

Lemma new_holds w :
  exists q w',
    MessageBatchQueue.new w = (w', inr q) /\ queueHolds q [] w' /\
    backend w' = backend w /\ host w' = host w /\ unawaited w' = unawaited w.
Proof.
  eexists _, _. split; [reflexivity|]. split; [|auto].
  exists (next (heap w)). simpl. split.
  - apply lookup_insert_eq.
  - apply lookup_insert_eq.
Qed.

Lemma enqueue_holds q l msg w :
  queueHolds q l w ->
  exists w',
    MessageBatchQueue.enqueue q msg w = (w', inr tt) /\
    queueHolds q (l ++ [msg]) w' /\
    backend w' = backend w /\ host w' = host w /\ unawaited w' = unawaited w.
Proof.
  intros (a & Hq & Ha).
  unfold MessageBatchQueue.enqueue, MessageBatchQueue.getQueue, push, bind.
  rewrite Hq, Ha. eexists. split; [reflexivity|]. split; [|auto].
  exists a. simpl. split; [exact Hq|]. apply lookup_insert_eq.
Qed.

Lemma size_holds q l w :
  queueHolds q l w -> MessageBatchQueue.size q w = (w, inr (length l)).
Proof.
  intros (a & Hq & Ha).
  unfold MessageBatchQueue.size, MessageBatchQueue.getQueue, readArray, bind.
  rewrite Hq, Ha. reflexivity.
Qed.

Lemma drain_holds q l w :
  queueHolds q l w ->
  exists w' b,
    MessageBatchQueue.drain q w = (w', inr b) /\
    arrays (heap w') !! b = Some l /\ queueHolds q [] w' /\
    backend w' = backend w /\ host w' = host w /\ unawaited w' = unawaited w.
Proof.
  intros (a & Hq & Ha).
  unfold MessageBatchQueue.drain, MessageBatchQueue.getQueue, readArray, bind.
  rewrite Hq, Ha. simpl.
  eexists _, _. split; [reflexivity|]. simpl. split; [|split; [|auto]].
  - rewrite lookup_insert_ne by lia. apply lookup_insert_eq.
  - exists (Pos.succ (next (heap w))). simpl. split; apply lookup_insert_eq.
Qed.

Lemma enqueue_all_holds q msgs : forall l w,
  queueHolds q l w ->
  exists w' us,
    mapM (MessageBatchQueue.enqueue q) msgs w = (w', inr us) /\
    queueHolds q (l ++ msgs) w'.
Proof.
  induction msgs as [|m msgs IH]; intros l w Hq.
  - exists w, []. split; [reflexivity|]. rewrite app_nil_r. exact Hq.
  - destruct (enqueue_holds q l m w Hq) as (w1 & Hrun & Hq1 & _).
    destruct (IH (l ++ [m]) w1 Hq1) as (w2 & us & Hrest & Hq2).
    exists w2, (tt :: us). split.
    + simpl. unfold bind at 1. rewrite Hrun. unfold bind at 1. rewrite Hrest.
      reflexivity.
    + rewrite <- app_assoc in Hq2. exact Hq2.
Qed.

End Queue.

(** C4.  On a fresh queue, after the messages [msgs] are enqueued one by
    one, [drain] returns an array holding exactly [msgs] in insertion order
    and leaves the size 0; a second [drain] returns an empty array. *)
Theorem drain_fifo (msgs : list BatchedMessage.t) (w : World) :
  exists q w0 us w1 b w2 b' w3,
    MessageBatchQueue.new w = (w0, inr q) /\
    mapM (MessageBatchQueue.enqueue q) msgs w0 = (w1, inr us) /\
    length us = length msgs /\
    MessageBatchQueue.drain q w1 = (w2, inr b) /\
    arrays (heap w2) !! b = Some msgs /\
    MessageBatchQueue.size q w2 = (w2, inr 0%nat) /\
    MessageBatchQueue.drain q w2 = (w3, inr b') /\
    arrays (heap w3) !! b' = Some [] /\
    MessageBatchQueue.size q w3 = (w3, inr 0%nat).
Proof.
  destruct (new_holds w) as (q & w0 & Hnew & Hq0 & _).
  destruct (enqueue_all_holds q msgs [] w0 Hq0) as (w1 & us & Hall & Hq1).
  simpl in Hq1.
  destruct (drain_holds q msgs w1 Hq1) as (w2 & b & Hd & Hb & Hq2 & _).
  destruct (drain_holds q [] w2 Hq2) as (w3 & b' & Hd' & Hb' & Hq3 & _).
  exists q, w0, us, w1, b, w2, b', w3.
  repeat split; try assumption.
  - clear -Hall. revert w0 us w1 Hall.
    induction msgs as [|m msgs IH]; intros w0 us w1 Hall; simpl in Hall.
    + injection Hall as _ <-. reflexivity.
    + unfold bind in Hall.
      destruct (MessageBatchQueue.enqueue q m w0) as [wa [e|u]];
        [discriminate Hall|].
      destruct (mapM (MessageBatchQueue.enqueue q) msgs wa) as [wb [e|us']] eqn:Hr;
        [discriminate Hall|].
      injection Hall as _ <-. simpl. f_equal. exact (IH wa us' wb Hr).
  - exact (size_holds q [] w2 Hq2).
  - exact (size_holds q [] w3 Hq3).
Qed.

(** C5 (as amended).  [peek] returns the current contents and leaves the
    world as it is, so the size and what a later [drain] returns are not
    changed by it; the array it returns is the queue's own array and not a
    copy: a later [enqueue] shows in it, and a [push] on it is a push on the
    queue. *)
Theorem peek_shares_storage (q : loc) (l : list BatchedMessage.t) (w : World) :
  queueHolds q l w ->
  exists a,
    MessageBatchQueue.peek q w = (w, inr a) /\
    arrays (heap w) !! a = Some l /\
    queues (heap w) !! q = Some a /\
    MessageBatchQueue.size q w = (w, inr (length l)) /\
    (forall msg, exists w',
       MessageBatchQueue.enqueue q msg w = (w', inr tt) /\
       arrays (heap w') !! a = Some (l ++ [msg])) /\
    (forall msg, exists w',
       push a msg w = (w', inr tt) /\ queueHolds q (l ++ [msg]) w' /\
       MessageBatchQueue.size q w' = (w', inr (S (length l)))).
Proof.
  intros Hq. pose proof Hq as (a & Hqa & Ha). exists a.
  split.
  { unfold MessageBatchQueue.peek, MessageBatchQueue.getQueue.
    rewrite Hqa. reflexivity. }
  split; [exact Ha|]. split; [exact Hqa|].
  split; [exact (size_holds q l w Hq)|].
  split.
  { intros msg.
    unfold MessageBatchQueue.enqueue, MessageBatchQueue.getQueue, push, bind.
    rewrite Hqa, Ha. eexists. split; [reflexivity|]. apply lookup_insert_eq. }
  intros msg. unfold push. rewrite Ha. eexists. split; [reflexivity|].
  assert (queueHolds q (l ++ [msg])
            (with_heap (with_arrays (<[a:=l ++ [msg]]> (arrays (heap w))) (heap w)) w))
    as Hq'.
  { exists a. simpl. split; [exact Hqa|]. apply lookup_insert_eq. }
  split; [exact Hq'|].
  rewrite (size_holds _ _ _ Hq'). rewrite length_app. simpl.
  repeat f_equal. lia.
Qed.

(** A queue holding one message, peeked at and pushed to. *)
Lemma peek_shares_storage_witness :
  let w := with_heap {| arrays := {[ 1%positive := [sampleMessage "a" "peek me"] ]};
                        queues := {[ 2%positive := 1%positive ]};
                        next := 3%positive |} emptyWorld in
  exists a,
    MessageBatchQueue.peek 2%positive w = (w, inr a) /\
    arrays (heap w) !! a = Some [sampleMessage "a" "peek me"] /\
    queues (heap w) !! 2%positive = Some a /\
    MessageBatchQueue.size 2%positive w = (w, inr 1%nat) /\
    (forall msg, exists w',
       MessageBatchQueue.enqueue 2%positive msg w = (w', inr tt) /\
       arrays (heap w') !! a = Some ([sampleMessage "a" "peek me"] ++ [msg])) /\
    (forall msg, exists w',
       push a msg w = (w', inr tt) /\
       queueHolds 2%positive ([sampleMessage "a" "peek me"] ++ [msg]) w' /\
       MessageBatchQueue.size 2%positive w' = (w', inr 2%nat)).
Proof.
  intros w.
  apply (peek_shares_storage 2%positive [sampleMessage "a" "peek me"] w).
  exists 1%positive. split; reflexivity.
Defined.

(** C5 fails as stated: the value returned by [peek] aliases the queue.  A
    fresh queue receives one message; a caller pushes a second one on the
    array [peek] returned; the queue then has size 2 and drains both. *)
Lemma peek_alias_changes_queue :
  ~ (forall (q a : loc) (w w' : World) (msg : BatchedMessage.t),
       MessageBatchQueue.peek q w = (w, inr a) ->
       push a msg w = (w', inr tt) ->
       snd (MessageBatchQueue.size q w') = snd (MessageBatchQueue.size q w)).
Proof.
  intros Hno.
  pose (w1 := fst ((let! q := MessageBatchQueue.new in
                    MessageBatchQueue.enqueue q (sampleMessage "a" "kept"))
                   emptyWorld)).
  pose (msg := sampleMessage "b" "pushed by the caller").
  specialize (Hno 2%positive 1%positive w1 (fst (push 1%positive msg w1)) msg).
  vm_compute in Hno. specialize (Hno eq_refl eq_refl). discriminate Hno.
Qed.

(** ** The storage client *)

Section StorageFacts.
Context `{Platform}.

Import SovereignStorageClient.

Ltac run_storage :=
  unfold getContact, touchContactLastMessage, archiveNoise,
    TableClient.getEntity, TableClient.updateEntity, TableClient.upsertArchive,
    request, try_catch, bind, liftE, ret, throw, Date_now, randomSuffix in *.

Lemma archiveWrites_log w w' c :
  isArchiveWrite c = false ->
  calls (backend w') = calls (backend w) ++ [c] ->
  archiveWrites w' = archiveWrites w.
Proof.
  intros Hc Hlog. unfold archiveWrites. rewrite Hlog, List.filter_app.
  simpl. rewrite Hc, app_nil_r. reflexivity.
Qed.

Ltac settle Hrun :=
  repeat (simpl in Hrun; case_match); simplify_eq/=.

(** A lookup leaves everything but the request log and the script alone. *)
Lemma getContact_frame storage id w w1 r :
  getContact storage id w = (w1, r) ->
  heap w1 = heap w /\ host w1 = host w /\ unawaited w1 = unawaited w /\
  urgencyTable (backend w1) = urgencyTable (backend w) /\
  archiveTable (backend w1) = archiveTable (backend w) /\
  archiveWrites w1 = archiveWrites w.
Proof.
  intros Hrun. run_storage. settle Hrun; repeat split;
    try reflexivity;
    eapply archiveWrites_log; try reflexivity; reflexivity.
Qed.


(** A lookup that answers has computed the key of the id. *)
Lemma getContact_answer_key storage id w w1 o :
  getContact storage id w = (w1, inr o) ->
  exists key, normalizeRowKey id = inr key.
Proof.
  intros Hrun. run_storage.
  destruct (normalizeRowKey id) as [e|key] eqn:Hkey; [|eexists; reflexivity].
  apply normalizeRowKey_error in Hkey as ->. simpl in Hrun. discriminate Hrun.
Qed.

Lemma touch_frame storage id w w1 r :
  touchContactLastMessage storage id w = (w1, r) ->
  heap w1 = heap w /\ unawaited w1 = unawaited w /\
  archiveTable (backend w1) = archiveTable (backend w) /\
  archiveWrites w1 = archiveWrites w.
Proof.
  intros Hrun. run_storage. settle Hrun; repeat split;
    try reflexivity;
    eapply archiveWrites_log; try reflexivity; reflexivity.
Qed.

(** A missing record makes the update fail with 404, which is swallowed. *)
Lemma touch_missing storage id key w :
  normalizeRowKey id = inr key ->
  scripted (backend w) = None ->
  urgencyTable (backend w) !! (PK_CONTACTS, key) = None ->
  exists w1,
    touchContactLastMessage storage id w = (w1, inr tt) /\
    urgencyTable (backend w1) = urgencyTable (backend w).
Proof.
  intros Hkey Hserved Hnone. run_storage. rewrite Hkey. simpl.
  rewrite Hserved. simpl. rewrite Hnone. simpl.
  eexists. split; reflexivity.
Qed.

(** Any not-found answer to the update is swallowed. *)
Lemma touch_not_found storage id key w e :
  normalizeRowKey id = inr key ->
  scripted (backend w) = Some e ->
  isNotFoundError e = true ->
  exists w1,
    touchContactLastMessage storage id w = (w1, inr tt) /\
    urgencyTable (backend w1) = urgencyTable (backend w).
Proof.
  intros Hkey Hfault H404. run_storage. rewrite Hkey. simpl.
  rewrite Hfault. simpl. rewrite H404. simpl.
  eexists. split; reflexivity.
Qed.

End StorageFacts.

(** ** Classification and the filter engine *)

Section FilterFacts.
Context `{Platform}.

Import SovereignStorageClient.

Lemma truthy_nonempty (s : jsstring) : s <> [] -> truthy (Some s) = true.
Proof. destruct s; [congruence|reflexivity]. Qed.

(** Classification of a non-empty id follows the answer of the lookup. *)
Lemma classifySender_lookup ctx storage w :
  senderOf ctx <> [] ->
  classifySender ctx storage w
  = match getContact storage (senderOf ctx) w with
    | (w1, inr (Some c)) =>
      (w1, inr {| ClassificationResult.classification :=
                    if UrgencyTableEntry.isPriority c then priority_human
                    else known_human;
                  ClassificationResult.contactEntry := Some c |})
    | (w1, inr None) =>
      (w1, inr {| ClassificationResult.classification := system_noise;
                  ClassificationResult.contactEntry := None |})
    | (w1, inl e) => (w1, inl e)
    end.
Proof.
  intros Hid. unfold classifySender. rewrite (truthy_nonempty _ Hid). simpl.
  unfold bind. destruct (getContact storage (senderOf ctx) w) as [w1 [e|[c|]]];
    reflexivity.
Qed.

Lemma classifySender_empty ctx storage w :
  senderOf ctx = [] ->
  classifySender ctx storage w
  = (w, inr {| ClassificationResult.classification := system_noise;
               ClassificationResult.contactEntry := None |}).
Proof. intros Hid. unfold classifySender. rewrite Hid. reflexivity. Qed.

Lemma size_same_heap q w w' :
  heap w' = heap w ->
  snd (MessageBatchQueue.size q w') = snd (MessageBatchQueue.size q w).
Proof.
  intros Hh.
  unfold MessageBatchQueue.size, MessageBatchQueue.getQueue, readArray, bind.
  rewrite Hh. destruct (queues (heap w) !! q) as [a|]; [|reflexivity].
  rewrite Hh. destruct (arrays (heap w) !! a); reflexivity.
Qed.

Lemma queueHolds_same_heap q l w w' :
  heap w' = heap w -> queueHolds q l w -> queueHolds q l w'.
Proof. intros Hh (a & Hq & Ha). exists a. rewrite Hh. auto. Qed.

(** The archive helper sends one write; what it stores when served. *)
Lemma archiveSystemNoise_run ctx storage w :
  exists w2 r,
    archiveSystemNoise ctx storage w = (w2, r) /\
    heap w2 = heap w /\ unawaited w2 = unawaited w /\
    urgencyTable (backend w2) = urgencyTable (backend w) /\
    archiveWrites w2 = S (archiveWrites w) /\
    match scripted (backend w) with
    | None =>
      r = inr tt /\
      archiveTable (backend w2)
      = <[(ArchivedNoiseEntity.partitionKey (noiseEntity ctx w),
           ArchivedNoiseEntity.rowKey (noiseEntity ctx w)) := noiseEntity ctx w]>
          (archiveTable (backend w))
    | Some e => r = inl e /\ archiveTable (backend w2) = archiveTable (backend w)
    end.
Proof.
  assert (forall w0 pk rk,
            calls (backend w0) = calls (backend w) ++ [UpsertEntity TABLE_ARCHIVE pk rk] ->
            archiveWrites w0 = S (archiveWrites w)) as Hlog.
  { intros w0 pk rk Hc. unfold archiveWrites. rewrite Hc, List.filter_app.
    rewrite length_app. cbn [List.filter isArchiveWrite].
    rewrite bool_decide_eq_true_2 by reflexivity. simpl. lia. }
  unfold archiveSystemNoise, archiveNoise, TableClient.upsertArchive, request,
    bind, ret, Date_now, randomSuffix, noiseEntity.
  destruct (MsgContext.MessageSid ctx) as [sid|]; simpl;
    destruct (scripted (backend w)) as [e|]; simpl;
    eexists _, _; (split; [reflexivity|]); simpl;
    repeat split; try reflexivity;
    eapply Hlog; simpl; reflexivity.
Qed.

(** How the filter runs for a registered sender: the touch is started and
    dropped, whatever it does, and the branch of the priority flag follows. *)
Lemma applySovereignFilter_registered_run ctx storage q w w1 c :
  registeredSender ctx storage c w w1 ->
  applySovereignFilter ctx storage q w
  = (if UrgencyTableEntry.isPriority c then
       do! void (touchContactLastMessage storage (senderOf ctx)) in
       ret DeliverRaw
     else
       do! void (touchContactLastMessage storage (senderOf ctx)) in
       let! t := Date_now in
       do! MessageBatchQueue.enqueue q
             {| BatchedMessage.senderId := senderOf ctx;
                BatchedMessage.senderName := MsgContext.SenderName ctx;
                BatchedMessage.body := (MsgContext.Body ctx ?? []);
                BatchedMessage.provider :=
                  match MsgContext.Provider ctx with
                  | Some p => Some p
                  | None => MsgContext.Surface ctx
                  end;
                BatchedMessage.receivedAt := toISOString t;
                BatchedMessage.sessionKey := MsgContext.SessionKey ctx;
                BatchedMessage.originatingChannel := MsgContext.OriginatingChannel ctx;
                BatchedMessage.originatingTo := MsgContext.OriginatingTo ctx |} in
       ret Batch) w1.
Proof.
  intros [Hid Hget]. unfold applySovereignFilter. unfold bind at 1.
  rewrite (classifySender_lookup ctx storage w Hid), Hget.
  destruct (UrgencyTableEntry.isPriority c); reflexivity.
Qed.

(** A dropped promise adds one entry to the unawaited ones and returns. *)
Lemma void_run {A} (m : M A) w :
  exists w1 r,
    m w = (w1, r) /\
    void m w = (with_unawaited (unawaited w1 ++ [settled r]) w1, inr tt).
Proof.
  unfold void. destruct (m w) as [w1 [e|a]]; eexists _, _; split; reflexivity.
Qed.

End FilterFacts.

(** Closing a goal about sample states by evaluation. *)
Ltac by_eval :=
  first
    [ reflexivity
    | vm_compute; reflexivity
    | let Hx := fresh in intros Hx; vm_compute in Hx; discriminate Hx ].



(** C2.  For a registered sender the outcome follows the priority flag.  A
    priority contact gives [deliver-raw] / [priority-human] and the store of
    arrays and queues is left as it is, so nothing is enqueued.  A known
    contact gives [batch] / [known-human] and the queue holds one message
    more, at its end, whose body is the body of the inbound message. *)
Theorem applySovereignFilter_registered `{Platform} (ctx : MsgContext.t)
    (storage : SovereignStorageClient.t) (q : loc) (w w1 : World)
    (c : UrgencyTableEntry.t) (l : list BatchedMessage.t) :
  registeredSender ctx storage c w w1 ->
  queueHolds q l w ->
  exists w2 o,
    applySovereignFilter ctx storage q w = (w2, inr o) /\
    if UrgencyTableEntry.isPriority c then
      action o = deliver_raw /\ classification o = priority_human /\
      heap w2 = heap w /\
      MessageBatchQueue.size q w2 = (w2, inr (length l))
    else
      action o = batch /\ classification o = known_human /\
      exists msg,
        queueHolds q (l ++ [msg]) w2 /\
        MessageBatchQueue.size q w2 = (w2, inr (S (length l))) /\
        BatchedMessage.body msg = (MsgContext.Body ctx ?? []) /\
        BatchedMessage.senderId msg = senderOf ctx.
Proof.
  intros Hreg Hq.
  rewrite (applySovereignFilter_registered_run ctx storage q w w1 c Hreg).
  destruct Hreg as [Hid Hget].
  destruct (getContact_frame storage _ w w1 _ Hget) as (Hheap1 & _).
  destruct (void_run (SovereignStorageClient.touchContactLastMessage storage
                        (senderOf ctx)) w1) as (wt & rt & Htouch & Hvoid).
  destruct (touch_frame storage _ w1 wt rt Htouch) as (Hheapt & _).
  destruct (UrgencyTableEntry.isPriority c).
  - unfold bind. rewrite Hvoid. eexists _, DeliverRaw.
    split; [reflexivity|]. split; [reflexivity|]. split; [reflexivity|].
    assert (heap (with_unawaited (unawaited wt ++ [settled rt]) wt) = heap w)
      as Hheap by (simpl; congruence).
    split; [exact Hheap|].
    apply size_holds. exact (queueHolds_same_heap q l w _ Hheap Hq).
  - unfold bind at 1. rewrite Hvoid. unfold bind at 1. unfold Date_now at 1.
    match goal with
    | |- context [MessageBatchQueue.enqueue q ?m] => set (msg := m)
    end.
    match goal with
    | |- context [bind (MessageBatchQueue.enqueue q msg) _ ?w0] =>
      assert (queueHolds q l w0) as Hq0
        by (apply (queueHolds_same_heap q l w); [simpl; congruence|exact Hq]);
      destruct (enqueue_holds q l msg w0 Hq0) as (w2 & Henq & Hq2 & _)
    end.
    unfold bind. rewrite Henq. exists w2, Batch.
    split; [reflexivity|]. split; [reflexivity|]. split; [reflexivity|].
    exists msg. split; [exact Hq2|]. split.
    + rewrite (size_holds q _ w2 Hq2), length_app. simpl.
      repeat f_equal. lia.
    + split; reflexivity.
Qed.

(** A priority contact and a known contact write; the queue holds one
    message already. *)
Lemma applySovereignFilter_registered_witness :
  let registry := [sampleContact "user-123" "Alice" true None None;
                   sampleContact "user-456" "Bob" false None None] in
  let held := sampleMessage "user-456" "earlier" in
  let w :=
    with_heap {| arrays := {[ 1%positive := [held] ]};
                 queues := {[ 2%positive := 1%positive ]};
                 next := 3%positive |} (sampleWorld registry [] 1000) in
  (exists w2 o,
     applySovereignFilter (sampleCtx "user-123" "hello") sampleStorage 2%positive w
     = (w2, inr o) /\
     action o = deliver_raw /\ classification o = priority_human /\
     heap w2 = heap w /\
     MessageBatchQueue.size 2%positive w2 = (w2, inr 1%nat)) /\
  (exists w2 o,
     applySovereignFilter (sampleCtx "user-456" "hello") sampleStorage 2%positive w
     = (w2, inr o) /\
     action o = batch /\ classification o = known_human /\
     exists msg,
       queueHolds 2%positive ([held] ++ [msg]) w2 /\
       MessageBatchQueue.size 2%positive w2 = (w2, inr 2%nat) /\
       BatchedMessage.body msg = js "hello" /\
       BatchedMessage.senderId msg = js "user-456").
Proof.
  intros registry held w.
  assert (queueHolds 2%positive [held] w) as Hq
    by (exists 1%positive; split; reflexivity).
  pose (seen := fun id : string =>
    with_backend
      (receive (GetEntity TABLE_URGENCY PK_CONTACTS (js id)) (backend w)) w).
  assert (registeredSender (sampleCtx "user-123" "hello") sampleStorage
            (sampleContact "user-123" "Alice" true None None) w (seen "user-123"))
    as Halice by (split; by_eval).
  assert (registeredSender (sampleCtx "user-456" "hello") sampleStorage
            (sampleContact "user-456" "Bob" false None None) w (seen "user-456"))
    as Hbob by (split; by_eval).
  split.
  - exact (applySovereignFilter_registered _ _ _ _ _ _ _ Halice Hq).
  - exact (applySovereignFilter_registered _ _ _ _ _ _ _ Hbob Hq).
Defined.

(** C3.  For an unknown sender the filter sends exactly one archive write
    and leaves the store of arrays and queues as it is, so the size of the
    queue is unchanged.  When the service serves the write, the outcome is
    [archive] / [system-noise] and the archive holds the entity built from
    the message; when the write fails, that error is the result of the
    filter, no outcome is returned and the archive is as it was. *)
Theorem applySovereignFilter_unknown `{Platform} (ctx : MsgContext.t)
    (storage : SovereignStorageClient.t) (q : loc) (w w1 : World) :
  unknownSender ctx storage w w1 ->
  exists w2 res,
    applySovereignFilter ctx storage q w = (w2, res) /\
    archiveWrites w2 = S (archiveWrites w) /\
    heap w2 = heap w /\
    snd (MessageBatchQueue.size q w2) = snd (MessageBatchQueue.size q w) /\
    match scripted (backend w1) with
    | None =>
      exists o,
      res = inr o /\ action o = archive /\ classification o = system_noise /\
      archiveTable (backend w2)
        !! (ArchivedNoiseEntity.partitionKey (noiseEntity ctx w1),
            ArchivedNoiseEntity.rowKey (noiseEntity ctx w1))
      = Some (noiseEntity ctx w1) /\
      ArchivedNoiseEntity.body (noiseEntity ctx w1) = (MsgContext.Body ctx ?? [])
    | Some e =>
      res = inl e /\ archiveTable (backend w2) = archiveTable (backend w)
    end.
Proof.
  intros Hunknown.
  assert (classifySender ctx storage w
          = (w1, inr {| ClassificationResult.classification := system_noise;
                        ClassificationResult.contactEntry := None |})) as Hclass.
  { destruct Hunknown as [[Hid ->]|[Hid Hget]].
    - apply classifySender_empty. exact Hid.
    - rewrite (classifySender_lookup ctx storage w Hid), Hget. reflexivity. }
  assert (heap w1 = heap w /\ archiveWrites w1 = archiveWrites w /\
          archiveTable (backend w1) = archiveTable (backend w))
    as (Hheap1 & Hlog1 & Harch1).
  { destruct Hunknown as [[_ ->]|[_ Hget]]; [auto|].
    destruct (getContact_frame storage _ w w1 _ Hget)
      as (? & _ & _ & _ & ? & ?). auto. }
  destruct (archiveSystemNoise_run ctx storage w1)
    as (w2 & r & Hrun & Hheap2 & _ & _ & Hlog2 & Hres).
  exists w2, (match r with inl e => inl e | inr _ => inr Archive end).
  split.
  { unfold applySovereignFilter, bind. rewrite Hclass. simpl.
    unfold bind. rewrite Hrun. destruct r; reflexivity. }
  split; [congruence|]. split; [congruence|].
  split; [apply size_same_heap; congruence|].
  destruct (scripted (backend w1)) as [e|].
  - destruct Hres as [-> Harch2]. split; [reflexivity|congruence].
  - destruct Hres as [-> Harch2]. exists Archive. split; [reflexivity|].
    split; [reflexivity|]. split; [reflexivity|].
    split; [|reflexivity]. rewrite Harch2. apply lookup_insert_eq.
Qed.

(** A stranger writes, and the archive is served; a message without sender
    id arrives while the archive answers with 503. *)
Lemma applySovereignFilter_unknown_witness :
  let w := sampleWorld [sampleContact "user-123" "Alice" true None None] [] 1000 in
  let down := sampleWorld [] [Some (RestError (Some 503))] 1000 in
  let nobody :=
    {| MsgContext.Body := Some (js "system alert");
       MsgContext.From := None; MsgContext.SenderId := None;
       MsgContext.SenderName := None; MsgContext.Provider := None;
       MsgContext.Surface := None; MsgContext.SessionKey := None;
       MsgContext.MessageSid := Some (js "msg-abc");
       MsgContext.OriginatingChannel := None;
       MsgContext.OriginatingTo := None |} in
  (exists w2,
     applySovereignFilter (sampleCtx "bot-99" "ping") sampleStorage 2%positive w
     = (w2, inr Archive) /\
     archiveWrites w2 = 1%nat /\ heap w2 = heap w) /\
  (exists w2,
     applySovereignFilter nobody sampleStorage 2%positive down
     = (w2, inl (RestError (Some 503))) /\
     archiveWrites w2 = 1%nat /\ heap w2 = heap down /\
     archiveTable (backend w2) = ∅).
Proof.
  intros w down nobody.
  assert (unknownSender (sampleCtx "bot-99" "ping") sampleStorage w
            (with_backend
               (receive (GetEntity TABLE_URGENCY PK_CONTACTS (js "bot-99"))
                  (backend w)) w)) as Hbot
    by (right; split; by_eval).
  assert (unknownSender nobody sampleStorage down down) as Hnobody
    by (left; split; reflexivity).
  split.
  - destruct (applySovereignFilter_unknown _ _ 2%positive _ _ Hbot)
      as (w2 & res & Hrun & Hlog & Hheap & _ & Hres).
    destruct Hres as ([| |] & -> & Hact & _); try discriminate Hact.
    exists w2. auto.
  - destruct (applySovereignFilter_unknown _ _ 2%positive _ _ Hnobody)
      as (w2 & res & Hrun & Hlog & Hheap & _ & Hres).
    destruct Hres as (-> & Harch). exists w2. auto.
Defined.

(** C6.  The touch of the last-message timestamp is best effort.  When the
    record does not exist the update is answered with not-found, and
    whenever the update is answered with not-found
    [touchContactLastMessage] returns without raising, the registry being as
    it was.  When the touch started for a registered sender fails, the
    filter still returns the outcome of the priority flag; the failure is
    only recorded as the settlement of a promise nobody awaits. *)
Theorem touch_is_best_effort `{Platform} (storage : SovereignStorageClient.t) :
  (forall id key w,
     normalizeRowKey id = inr key ->
     scripted (backend w) = None ->
     urgencyTable (backend w) !! (PK_CONTACTS, key) = None ->
     exists w1,
       SovereignStorageClient.touchContactLastMessage storage id w = (w1, inr tt) /\
       urgencyTable (backend w1) = urgencyTable (backend w)) /\
  (forall id key w e,
     normalizeRowKey id = inr key ->
     scripted (backend w) = Some e ->
     isNotFoundError e = true ->
     exists w1,
       SovereignStorageClient.touchContactLastMessage storage id w = (w1, inr tt) /\
       urgencyTable (backend w1) = urgencyTable (backend w)) /\
  (forall ctx q w w1 c l e wt,
     registeredSender ctx storage c w w1 ->
     queueHolds q l w ->
     SovereignStorageClient.touchContactLastMessage storage (senderOf ctx) w1
     = (wt, inl e) ->
     exists w2,
       applySovereignFilter ctx storage q w
       = (w2, inr (if UrgencyTableEntry.isPriority c then DeliverRaw else Batch)) /\
       unawaited w2 = unawaited w ++ [inl e]).
Proof.
  split; [intros id key w; apply touch_missing|].
  split; [intros id key w e; apply touch_not_found|].
  intros ctx q w w1 c l e wt Hreg Hq Htouch.
  rewrite (applySovereignFilter_registered_run ctx storage q w w1 c Hreg).
  destruct Hreg as [Hid Hget].
  destruct (getContact_frame storage _ w w1 _ Hget) as (Hheap1 & _ & Hun1 & _).
  destruct (touch_frame storage _ w1 wt _ Htouch) as (Hheapt & Hunt & _).
  assert (void (SovereignStorageClient.touchContactLastMessage storage (senderOf ctx)) w1
          = (with_unawaited (unawaited wt ++ [inl e]) wt, inr tt)) as Hvoid.
  { unfold void. rewrite Htouch. reflexivity. }
  destruct (UrgencyTableEntry.isPriority c).
  - unfold bind. rewrite Hvoid. eexists. split; [reflexivity|].
    simpl. congruence.
  - unfold bind at 1. rewrite Hvoid. unfold bind at 1. unfold Date_now at 1.
    match goal with
    | |- context [bind (MessageBatchQueue.enqueue q ?msg) _ ?w0] =>
      assert (queueHolds q l w0) as Hq0
        by (apply (queueHolds_same_heap q l w); [simpl; congruence|exact Hq]);
      destruct (enqueue_holds q l msg w0 Hq0)
        as (w2 & Henq & _ & _ & _ & Hun2)
    end.
    unfold bind. rewrite Henq. exists w2. split; [reflexivity|].
    rewrite Hun2. simpl. congruence.
Qed.

(** A sender without record is touched; a priority contact and a known
    contact write while the update of the timestamp is answered with 500. *)
Lemma touch_is_best_effort_witness :
  let registry := [sampleContact "user-123" "Alice" true None None;
                   sampleContact "user-456" "Bob" false None None] in
  let w := sampleWorld registry [] 1000 in
  let failing := sampleWorld registry [None; Some (RestError (Some 500))] 1000 in
  (exists w1,
     SovereignStorageClient.touchContactLastMessage sampleStorage (js "bot-99") w
     = (w1, inr tt) /\
     urgencyTable (backend w1) = urgencyTable (backend w)) /\
  (exists w2,
     applySovereignFilter (sampleCtx "user-123" "hello") sampleStorage 2%positive failing
     = (w2, inr DeliverRaw) /\
     unawaited w2 = [inl (RestError (Some 500))]) /\
  (exists w2,
     applySovereignFilter (sampleCtx "user-456" "hello") sampleStorage 2%positive failing
     = (w2, inr Batch) /\
     unawaited w2 = [inl (RestError (Some 500))]).
Proof.
  intros registry w failing.
  destruct (touch_is_best_effort sampleStorage) as (Hmissing & _ & Hfails).
  assert (queueHolds 2%positive [] failing) as Hq
    by (exists 1%positive; split; reflexivity).
  pose (seen := fun id : string =>
    with_backend
      (receive (GetEntity TABLE_URGENCY PK_CONTACTS (js id)) (backend failing))
      failing).
  assert (registeredSender (sampleCtx "user-123" "hello") sampleStorage
            (sampleContact "user-123" "Alice" true None None) failing
            (seen "user-123")) as Halice by (split; by_eval).
  assert (registeredSender (sampleCtx "user-456" "hello") sampleStorage
            (sampleContact "user-456" "Bob" false None None) failing
            (seen "user-456")) as Hbob by (split; by_eval).
  split; [|split].
  - apply (Hmissing (js "bot-99") (js "bot-99") w); by_eval.
  - apply (Hfails _ 2%positive _ _ _ [] (RestError (Some 500))
             (fst (SovereignStorageClient.touchContactLastMessage sampleStorage
                     (js "user-123") (seen "user-123"))) Halice Hq).
    by_eval.
  - apply (Hfails _ 2%positive _ _ _ [] (RestError (Some 500))
             (fst (SovereignStorageClient.touchContactLastMessage sampleStorage
                     (js "user-456") (seen "user-456"))) Hbob Hq).
    by_eval.
Defined.

(** ** Relationship nudges *)

Section NudgeFacts.
Context `{Platform}.

Lemma roundDiv_nearest n d :
  0 < d -> 2 * (d * roundDiv n d) - d <= 2 * n < 2 * (d * roundDiv n d) + d.
Proof.
  intros Hd. unfold roundDiv.
  pose proof (Z.mul_div_le (2 * n + d) (2 * d) ltac:(lia)).
  pose proof (Z.mul_succ_div_gt (2 * n + d) (2 * d) ltac:(lia)).
  lia.
Qed.

Lemma readings_tick w t w' :
  Date_now w = (w', inr t) ->
  In t (readings w) /\ incl (readings w') (readings w) /\
  backend w' = backend w /\ heap w' = heap w.
Proof.
  unfold Date_now, readings. intros Hrun. injection Hrun as <- <-. simpl.
  split; [left; reflexivity|]. split; [|auto].
  destruct (later (host w)) as [|t' r]; simpl.
  - intros x [<-|[]]. left. reflexivity.
  - intros x Hx. right. exact Hx.
Qed.

Lemma buildNudge_run c T w w1 :
  incl (readings w1) (readings w) ->
  exists w2 n,
    buildNudge c T w1 = (w2, inr n) /\ nudgeFor T w c n /\
    incl (readings w2) (readings w).
Proof.
  intros Hincl. unfold buildNudge, nudgeFor.
  destruct (truthy (UrgencyTableEntry.lastMessageAt c)) eqn:Hlast.
  - destruct (Date_now w1) as [w2 rt] eqn:Hnow.
    assert (exists t, rt = inr t) as [t ->]
      by (unfold Date_now in Hnow; injection Hnow as _ <-; eexists; reflexivity).
    destruct (readings_tick w1 t w2 Hnow) as (Ht & Hincl2 & _).
    unfold bind. rewrite Hnow. simpl. eexists _, _.
    split; [reflexivity|]. simpl. split.
    + split; [reflexivity|]. split; [reflexivity|].
      split; [discriminate|]. split.
      * intros _. exists t. split; [apply Hincl; exact Ht|reflexivity].
      * intros ->. reflexivity.
    + intros x Hx. apply Hincl, Hincl2, Hx.
  - unfold bind, ret. simpl. eexists _, _. split; [reflexivity|]. simpl.
    split; [|exact Hincl].
    split; [reflexivity|]. split; [reflexivity|].
    split; [reflexivity|]. split; [discriminate|].
    intros ->. reflexivity.
Qed.

Lemma buildNudges_run T w cs : forall w1,
  incl (readings w1) (readings w) ->
  exists w2 ns,
    mapM (fun c => buildNudge c T) cs w1 = (w2, inr ns) /\
    Forall2 (nudgeFor T w) cs ns.
Proof.
  induction cs as [|c cs IH]; intros w1 Hincl.
  - exists w1, []. split; [reflexivity|constructor].
  - destruct (buildNudge_run c T w w1 Hincl) as (w2 & n & Hrun & Hn & Hincl2).
    destruct (IH w2 Hincl2) as (w3 & ns & Hrest & Hns).
    exists w3, (n :: ns). split.
    + simpl. unfold bind at 1. rewrite Hrun. unfold bind at 1. rewrite Hrest.
      reflexivity.
    + constructor; assumption.
Qed.

Lemma findSilentContacts_served storage T w :
  scripted (backend w) = None ->
  exists w1,
    SovereignStorageClient.findSilentContacts storage T w
    = (w1, inr (List.filter
                  (SovereignStorageClient.isSilent (now (host w) - T * 60 * 60 * 1000))
                  (listed w))) /\
    incl (readings w1) (readings w).
Proof.
  intros Hserved.
  unfold SovereignStorageClient.findSilentContacts,
    SovereignStorageClient.listContacts, TableClient.listEntities, request, bind.
  rewrite Hserved. simpl. eexists. split; [reflexivity|].
  unfold readings. simpl. destruct (later (host w)) as [|t' r]; simpl.
  - intros x [<-|[]]. left. reflexivity.
  - intros x Hx. right. exact Hx.
Qed.

Lemma Forall2_In_l {A B} (R : A -> B -> Prop) l k a :
  Forall2 R l k -> In a l -> exists b, In b k /\ R a b.
Proof.
  induction 1 as [|x y l k Hxy _ IH]; intros Ha; [destruct Ha|].
  destruct Ha as [<-|Ha].
  - exists y. split; [left; reflexivity|exact Hxy].
  - destruct (IH Ha) as (b & Hb & Hab). exists b. split; [right|]; assumption.
Qed.

End NudgeFacts.

(** C8.  When the registry serves the enumeration, the nudges answer, one
    by one and in order, to the listed contacts that pass the silence test.
    A contact without last-message timestamp always has a nudge, whose
    silent hours are the threshold itself.  A contact whose timestamp is
    not before the cutoff is not among the silent ones and no nudge is built
    from it.  A listed contact whose timestamp parses to a time before the
    cutoff always has a nudge, and that nudge reports the hours elapsed
    between a reading of the clock and the timestamp, rounded to the nearest
    integer.  Conversely a silent contact with a timestamp has one that
    parses and lies before the cutoff.  With notes, the suggestion of a
    nudge carries them verbatim. *)
Theorem generateRelationshipNudges_silent `{Platform}
    (storage : SovereignStorageClient.t)
    (config : option SovereignFilterConfig.t) (w : World) :
  let T := SovereignFilterConfig.nudgeAfterSilentHours
             (config ?? DEFAULT_SOVEREIGN_FILTER_CONFIG) in
  let cutoff := now (host w) - T * 60 * 60 * 1000 in
  let silent := List.filter (SovereignStorageClient.isSilent cutoff) (listed w) in
  scripted (backend w) = None ->
  exists w' nudges,
    generateRelationshipNudges storage config w = (w', inr nudges) /\
    Forall2 (nudgeFor T w) silent nudges /\
    (forall c,
       In c (listed w) ->
       truthy (UrgencyTableEntry.lastMessageAt c) = false ->
       exists n,
         In n nudges /\ nudgeFor T w c n /\
         RelationshipNudge.silentHours n = Int T) /\
    (forall c last,
       truthy (UrgencyTableEntry.lastMessageAt c) = true ->
       parseDate (UrgencyTableEntry.lastMessageAt c ?? []) = Some last ->
       cutoff <= last ->
       ~ In c silent) /\
    (forall c last,
       In c (listed w) ->
       truthy (UrgencyTableEntry.lastMessageAt c) = true ->
       parseDate (UrgencyTableEntry.lastMessageAt c ?? []) = Some last ->
       last < cutoff ->
       In c silent /\
       exists n t,
         In n nudges /\ nudgeFor T w c n /\ In t (readings w) /\
         RelationshipNudge.silentHours n
         = Int (roundDiv (t - last) (60 * 60 * 1000)) /\
         2 * (3600000 * roundDiv (t - last) (60 * 60 * 1000)) - 3600000
         <= 2 * (t - last)
         < 2 * (3600000 * roundDiv (t - last) (60 * 60 * 1000)) + 3600000 /\
         (truthy (UrgencyTableEntry.notes c) = true ->
          RelationshipNudge.suggestion n
          = js "Consider acknowledging " ++ UrgencyTableEntry.displayName c
            ++ js " for: " ++ (UrgencyTableEntry.notes c ?? []))) /\
    (forall c,
       In c silent ->
       truthy (UrgencyTableEntry.lastMessageAt c) = true ->
       exists last n t,
         parseDate (UrgencyTableEntry.lastMessageAt c ?? []) = Some last /\
         last < cutoff /\
         In n nudges /\ nudgeFor T w c n /\ In t (readings w) /\
         RelationshipNudge.silentHours n
         = Int (roundDiv (t - last) (60 * 60 * 1000)) /\
         2 * (3600000 * roundDiv (t - last) (60 * 60 * 1000)) - 3600000
         <= 2 * (t - last)
         < 2 * (3600000 * roundDiv (t - last) (60 * 60 * 1000)) + 3600000).
Proof.
  intros T cutoff silent Hserved.
  destruct (findSilentContacts_served storage T w Hserved) as (w1 & Hfind & Hincl).
  destruct (buildNudges_run T w silent w1 Hincl) as (w2 & nudges & Hmap & Hall).
  exists w2, nudges. split.
  { unfold generateRelationshipNudges, bind. fold T. rewrite Hfind.
    exact Hmap. }
  split; [exact Hall|]. split; [|split; [|split]].
  - intros c Hc Hlast.
    assert (In c silent) as Hsilent.
    { apply filter_In. split; [exact Hc|].
      unfold SovereignStorageClient.isSilent. rewrite Hlast. reflexivity. }
    destruct (Forall2_In_l _ _ _ _ Hall Hsilent) as (n & Hn & Hfor).
    exists n. split; [exact Hn|]. split; [exact Hfor|].
    destruct Hfor as (_ & _ & Hhours & _). exact (Hhours Hlast).
  - intros c last Hlast Hparse Hrecent Hsilent.
    apply filter_In in Hsilent as [_ Hsilent].
    unfold SovereignStorageClient.isSilent in Hsilent.
    rewrite Hlast, Hparse in Hsilent. simpl in Hsilent.
    apply Z.ltb_lt in Hsilent. lia.
  - intros c last Hc Hlast Hparse Hold.
    assert (In c silent) as Hsilent.
    { apply filter_In. split; [exact Hc|].
      unfold SovereignStorageClient.isSilent. rewrite Hlast, Hparse. simpl.
      apply Z.ltb_lt. exact Hold. }
    split; [exact Hsilent|].
    destruct (Forall2_In_l _ _ _ _ Hall Hsilent) as (n & Hn & Hfor).
    pose proof Hfor as (_ & _ & _ & Hhours & Hnotes).
    destruct (Hhours Hlast) as (t & Ht & Hval). rewrite Hparse in Hval.
    exists n, t.
    split; [exact Hn|]. split; [exact Hfor|]. split; [exact Ht|].
    split; [exact Hval|]. split; [|exact Hnotes].
    apply (roundDiv_nearest (t - last) 3600000). lia.
  - intros c Hsilent Hlast.
    pose proof Hsilent as Hin. apply filter_In in Hin as [_ Hin].
    unfold SovereignStorageClient.isSilent in Hin. rewrite Hlast in Hin.
    simpl in Hin.
    destruct (parseDate (UrgencyTableEntry.lastMessageAt c ?? [])) as [last|] eqn:Hparse;
      [|discriminate Hin].
    apply Z.ltb_lt in Hin.
    destruct (Forall2_In_l _ _ _ _ Hall Hsilent) as (n & Hn & Hfor).
    pose proof Hfor as (_ & _ & _ & Hhours & _).
    destruct (Hhours Hlast) as (t & Ht & Hval). rewrite Hparse in Hval.
    exists last, n, t.
    split; [reflexivity|]. split; [exact Hin|]. split; [exact Hn|].
    split; [exact Hfor|]. split; [exact Ht|]. split; [exact Hval|].
    apply (roundDiv_nearest (t - last) 3600000). lia.
Qed.

(** Dave wrote 96 hours ago, Eve one hour ago, Frank never; the threshold
    is the default of 72 hours.  Dave and Frank are nudged, Eve is not, and
    Dave's nudge reports 96 hours. *)
Lemma generateRelationshipNudges_silent_witness :
  let dave :=
    sampleContact "old-friend" "Dave" true
      (Some "2026-10-28T06:45:09.123Z") (Some "helped with the Azure migration") in
  let w :=
    sampleWorld
      [dave;
       sampleContact "active-friend" "Eve" true
         (Some "2026-11-01T05:45:09.123Z") None;
       sampleContact "new-contact" "Frank" false None None]
      [] 1793515509123 in
  exists w' nudges,
    generateRelationshipNudges sampleStorage None w = (w', inr nudges) /\
    Permutation
      (map (fun n => (RelationshipNudge.contactName n,
                      RelationshipNudge.silentHours n,
                      RelationshipNudge.suggestion n)) nudges)
      [(js "Dave", Int 96,
        js "Consider acknowledging Dave for: helped with the Azure migration");
       (js "Frank", Int 72,
        js "It's been 72 hours since you last connected with Frank. Consider reaching out.")] /\
    exists n,
      In n nudges /\
      RelationshipNudge.contactName n = js "Dave" /\
      RelationshipNudge.silentHours n = Int 96.
Proof.
  intros dave w.
  destruct (generateRelationshipNudges_silent sampleStorage None w eq_refl)
    as (w' & nudges & Hrun & _ & _ & _ & Hold & _).
  exists w', nudges. split; [exact Hrun|].
  assert (In dave (listed w)) as Hlisted.
  { vm_compute. repeat (first [left; reflexivity | right]). }
  destruct (Hold dave 1793169909123 Hlisted) as (_ & n & t & Hn & Hfor & Ht & Hval & _);
    [by_eval | by_eval | vm_compute; reflexivity |].
  split.
  - vm_compute in Hrun. injection Hrun as _ <-.
    first [ apply Permutation_refl | apply perm_swap ].
  - exists n. split; [exact Hn|]. split; [exact (proj1 Hfor)|].
    destruct Ht as [<-|[]]. exact Hval.
Defined.

(** ** Dispatch *)

Section DispatchFacts.
Context `{Platform}.
Context {Pipeline OpenClawConfig ReplyDispatcher GetReplyOptions ReplyResolver
         DispatchInboundResult : Type}.
Variable dispatchInboundMessage :
  @DispatchInboundParams OpenClawConfig ReplyDispatcher GetReplyOptions
     ReplyResolver -> Eff Pipeline DispatchInboundResult.
Variable markComplete : ReplyDispatcher -> Eff Pipeline unit.

(** With the filter disabled the wrapper is normal dispatch, tagged. *)
Lemma dispatch_disabled_run params w p :
  SovereignFilterConfig.enabled
    (filterConfig params ?? DEFAULT_SOVEREIGN_FILTER_CONFIG) = false ->
  dispatchWithSovereignFilter dispatchInboundMessage markComplete params (w, p)
  = match dispatchInboundMessage
            {| d_ctx := ctx params; d_cfg := cfg params;
               d_dispatcher := dispatcher params;
               d_replyOptions := replyOptions params;
               d_replyResolver := replyResolver params |} p with
    | (p', inr result) => ((w, p'), inr (PassedOn result DeliverRaw))
    | (p', inl e) => ((w, p'), inl e)
    end.
Proof.
  intros Hoff. unfold dispatchWithSovereignFilter. rewrite Hoff. simpl.
  unfold bind, normalDispatch, inPipeline. simpl.
  destruct (dispatchInboundMessage _ p) as [p' [e|result]]; reflexivity.
Qed.

(** C9.  With [enabled] false the wrapper hands the message to normal
    dispatch and does nothing else: the pipeline moves as normal dispatch
    moves it, the world of the filter (the registry, the log of requests,
    the queues, the clock) is left as it is; what normal dispatch returns is
    returned with [intercepted: false], and what it throws is thrown. *)
Theorem dispatch_disabled_bypass params w p :
  SovereignFilterConfig.enabled
    (filterConfig params ?? DEFAULT_SOVEREIGN_FILTER_CONFIG) = false ->
  exists p' r,
    dispatchInboundMessage
      {| d_ctx := ctx params; d_cfg := cfg params;
         d_dispatcher := dispatcher params;
         d_replyOptions := replyOptions params;
         d_replyResolver := replyResolver params |} p = (p', r) /\
    match r with
    | inr result =>
      exists res,
        dispatchWithSovereignFilter dispatchInboundMessage markComplete params (w, p)
        = ((w, p'), inr res) /\
        res = PassedOn result (outcome res) /\ intercepted res = false
    | inl e =>
      dispatchWithSovereignFilter dispatchInboundMessage markComplete params (w, p)
      = ((w, p'), inl e)
    end.
Proof.
  intros Hoff. rewrite (dispatch_disabled_run params w p Hoff).
  destruct (dispatchInboundMessage _ p) as [p' [e|result]]; eexists _, _;
    (split; [reflexivity|]); [reflexivity|].
  eexists. split; [reflexivity|]. split; reflexivity.
Qed.

(** C10.  With [enabled] false, whenever the wrapper returns, the outcome
    it reports is [deliver-raw] / [priority-human], whoever the sender is
    and whatever the registry holds. *)
Theorem dispatch_disabled_outcome params w p s' res :
  SovereignFilterConfig.enabled
    (filterConfig params ?? DEFAULT_SOVEREIGN_FILTER_CONFIG) = false ->
  dispatchWithSovereignFilter dispatchInboundMessage markComplete params (w, p)
  = (s', inr res) ->
  outcome res = DeliverRaw /\
  action (outcome res) = deliver_raw /\
  classification (outcome res) = priority_human.
Proof.
  intros Hoff Hrun. rewrite (dispatch_disabled_run params w p Hoff) in Hrun.
  destruct (dispatchInboundMessage _ p) as [p' [e|result]];
    [discriminate Hrun|].
  injection Hrun as _ <-. repeat split.
Qed.

End DispatchFacts.

(** A stranger writes while the filter is disabled and the registry is
    unreachable: the message is dispatched and the world is untouched. *)
Lemma dispatch_disabled_bypass_witness :
  let w := sampleWorld [] [Some (RestError (Some 503))] 1000 in
  let params :=
    sampleParams (sampleCtx "bot-99" "ping")
      (Some {| SovereignFilterConfig.enabled := false;
               SovereignFilterConfig.batchSchedule := js "0 9 * * *";
               SovereignFilterConfig.nudgeAfterSilentHours := 72;
               SovereignFilterConfig.azureStorageConnectionString := None |}) in
  exists res,
    dispatchWithSovereignFilter sampleDispatch sampleMarkComplete params (w, [])
    = ((w, ["sendFinalReply"%string]), inr res) /\
    intercepted res = false.
Proof.
  intros w params.
  destruct (dispatch_disabled_bypass sampleDispatch sampleMarkComplete params w []
              eq_refl) as (p' & r & Hnormal & Hrun).
  vm_compute in Hnormal. injection Hnormal as <- <-.
  destruct Hrun as (res & Hrun & _ & Hpassed).
  exists res. split; assumption.
Defined.

(** A known, non-priority contact and a stranger write while no filter
    configuration is given (the default is disabled): both are reported as
    [priority-human]. *)
Lemma dispatch_disabled_outcome_witness :
  let w := sampleWorld [sampleContact "user-456" "Bob" false None None] [] 1000 in
  let run := fun sender : string =>
    dispatchWithSovereignFilter sampleDispatch sampleMarkComplete
      (sampleParams (sampleCtx sender "hello") None) (w, []) in
  (exists s res, run "user-456" = (s, inr res) /\
                 classification (outcome res) = priority_human) /\
  (exists s res, run "bot-99" = (s, inr res) /\
                 classification (outcome res) = priority_human).
Proof.
  intros w run.
  split.
  - exists (fst (run "user-456")), (PassedOn 0%nat DeliverRaw).
    assert (run "user-456"
            = (fst (run "user-456"), inr (PassedOn 0%nat DeliverRaw))) as Hrun
      by by_eval.
    split; [exact Hrun|].
    exact (proj2 (proj2 (dispatch_disabled_outcome sampleDispatch
                           sampleMarkComplete
                           (sampleParams (sampleCtx "user-456" "hello") None)
                           w [] _ _ eq_refl Hrun))).
  - exists (fst (run "bot-99")), (PassedOn 0%nat DeliverRaw).
    assert (run "bot-99"
            = (fst (run "bot-99"), inr (PassedOn 0%nat DeliverRaw))) as Hrun
      by by_eval.
    split; [exact Hrun|].
    exact (proj2 (proj2 (dispatch_disabled_outcome sampleDispatch
                           sampleMarkComplete
                           (sampleParams (sampleCtx "bot-99" "hello") None)
                           w [] _ _ eq_refl Hrun))).
Defined.
